(** * English_OCR: the streaming client of [frontend/src/App.tsx]

    A shallow embedding of the React component [App]: the state it keeps
    ([useState] cells), the read/decode loop of [handleSubmit] that turns the
    chunks of the [/ocr/stream] response into state updates, the navigation
    handlers and the markdown export.

    Conventions.
    - A JS string is a [string]: the UTF-8 rendering of the text.  The
      operations the component uses ([split] on a line feed, [startsWith] and
      [slice] on an ASCII prefix, concatenation) act the same on that
      rendering as on UTF-16 code units.
    - A JS [number] holding a page number, a count or an index is a [Z].
    - [x?: T] and [T | null] are [option T].
    - The platform services the component calls, [TextDecoder.decode] with
      [{stream: true}] and [JSON.parse], are parameters of the read loop. *)

From Stdlib Require Import ZArith List String Ascii Bool Lia Strings.Byte Sorting.Sorted.
From Stdlib Require Import Numbers.DecimalString.
Import ListNotations.

Local Open Scope string_scope.
Local Open Scope Z_scope.
Local Open Scope list_scope.

Infix "+++" := String.append (right associativity, at level 60).

(* ================================================================= *)
(** ** JavaScript string and array operations used by the component *)

Module JS.

(** The line feed, ['\n']. *)
Definition LF : ascii := "010"%char.
Definition nl : string := String LF EmptyString.

(** [s.startsWith(p)] *)
Definition startsWith (p s : string) : bool := String.prefix p s.

(** [s.slice(n)] for [0 <= n]: drops the first [n] units. *)
Fixpoint slice (n : nat) (s : string) : string :=
  match n, s with
  | O, _ => s
  | S n', String _ s' => slice n' s'
  | S _, EmptyString => EmptyString
  end.

(** [s.split(sep)] for a one-character separator: never empty,
    [''.split('\n')] is [['']]. *)
Fixpoint split (sep : ascii) (s : string) : list string :=
  match s with
  | EmptyString => [EmptyString]
  | String c s' =>
      if Ascii.eqb c sep then EmptyString :: split sep s'
      else match split sep s' with
           | [] => [String c EmptyString]
           | h :: t => String c h :: t
           end
  end.

(** [a.pop()]: the last element ([undefined] on an empty array) and the
    array that is left. *)
Fixpoint pop {A : Type} (l : list A) : option A * list A :=
  match l with
  | [] => (None, [])
  | x :: l' =>
      match l' with
      | [] => (Some x, [])
      | _ :: _ => let (o, r) := pop l' in (o, x :: r)
      end
  end.

(** [x || ''] for [x : string | undefined]: the empty string is falsy too. *)
Definition or_empty (x : option string) : string :=
  match x with
  | Some s => s
  | None => EmptyString
  end.

(** [x || d] for [x : string | undefined]. *)
Definition or_else (x : option string) (d : string) : string :=
  match x with
  | Some EmptyString | None => d
  | Some s => s
  end.

(** [a.join(sep)] *)
Definition join (sep : string) (l : list string) : string := String.concat sep l.

(** [s.replace(pat, rep)] with a string pattern: the first occurrence only. *)
Fixpoint replace (pat rep s : string) : string :=
  if String.prefix pat s then rep +++ slice (String.length pat) s
  else match s with
       | EmptyString => EmptyString
       | String c s' => String c (replace pat rep s')
       end.

(** [`${n}`] for an integer [n] (below 10^21 in magnitude, where JS prints
    plain decimal digits). *)
Definition num (n : Z) : string := NilZero.string_of_int (Z.to_int n).

(** [`${x}`] for [x : string | undefined]. *)
Definition str (x : option string) : string :=
  match x with
  | Some s => s
  | None => "undefined"
  end.

End JS.

(* ================================================================= *)
(** ** Data model: the interfaces of App.tsx *)

(** [interface OCRResult]; the field [error] is [result_error] here, the
    name [error] being taken by the component's state cell below.
    [ocr_text] is declared [string], but the handler stores [data.ocr_text]
    as it comes and the frame of a failed page carries none: the field is
    optional here. *)
Record OCRResult := {
  page_number : Z;
  ocr_text : option string;
  status : string;
  result_error : option string;
  page_image : option string
}.

(** [interface StreamingState] *)
Record StreamingState := {
  total_pages : Z;
  results : list OCRResult;
  processing_page : option Z;
  api_calls_made : option Z;
  complete : bool
}.

(** The [useState] cells of [App] that the stream, the navigation and the
    export read or write ([dragActive] only drives a CSS class).  Of the
    [File] only the [name] is read. *)
Record App := {
  file : option string;
  loading : bool;
  streamingState : option StreamingState;
  error : string;
  currentPageIndex : Z
}.

(** The parsed body of one frame, [data], discriminated by [data.type]:
    ['metadata'], ['processing'], ['result'], ['complete'], ['error']. *)
Inductive StreamEvent :=
| Metadata (total_pages : Z)
| Processing (page_number : Z)
| Result (page_number : Z) (ocr_text : option string) (status : string)
         (error : option string) (page_image : option string)
| Complete (api_calls_made : Z)
| Error (message : string).

(** What [JSON.parse] returned, as the handler looks at it: one of the five
    frames, or a value whose [type] is none of them.  [data] is [any]; the
    fields the handler copies are taken at the types the interfaces give
    them. *)
Inductive SSEData :=
| Event (e : StreamEvent)
| Unrecognised.

(* ================================================================= *)
(** ** State setters *)

Definition setLoading (b : bool) (a : App) : App :=
  {| file := file a; loading := b; streamingState := streamingState a;
     error := error a; currentPageIndex := currentPageIndex a |}.

Definition setError (m : string) (a : App) : App :=
  {| file := file a; loading := loading a; streamingState := streamingState a;
     error := m; currentPageIndex := currentPageIndex a |}.

Definition setCurrentPageIndex (i : Z) (a : App) : App :=
  {| file := file a; loading := loading a; streamingState := streamingState a;
     error := error a; currentPageIndex := i |}.

Definition setFile (f : option string) (a : App) : App :=
  {| file := f; loading := loading a; streamingState := streamingState a;
     error := error a; currentPageIndex := currentPageIndex a |}.

(** [setStreamingState(v)] *)
Definition setStreamingState (v : option StreamingState) (a : App) : App :=
  {| file := file a; loading := loading a; streamingState := v;
     error := error a; currentPageIndex := currentPageIndex a |}.

(** [setStreamingState(prev => f(prev!))].  The updaters of the read loop
    assert [prev!]: they run on the state that [handleSubmit] installed.  On
    a [null] state the code would build an object without [results] or, for
    a result, throw on [prev.results]; neither is a [StreamingState], and the
    model leaves [None] there.  What is proved of the updaters is proved of
    a state that is not [null]. *)
Definition updateStreamingState (f : StreamingState -> StreamingState) (a : App) : App :=
  setStreamingState (option_map f (streamingState a)) a.

(* ================================================================= *)
(** ** The effect of one parsed frame (App.tsx, lines 133-170) *)

Definition apply_event (e : StreamEvent) (a : App) : App :=
  match e with
  | Metadata n =>
      updateStreamingState (fun prev =>
        {| total_pages := n; results := results prev;
           processing_page := processing_page prev;
           api_calls_made := api_calls_made prev; complete := complete prev |}) a
  | Processing p =>
      updateStreamingState (fun prev =>
        {| total_pages := total_pages prev; results := results prev;
           processing_page := Some p;
           api_calls_made := api_calls_made prev; complete := complete prev |}) a
  | Result p txt st err img =>
      updateStreamingState (fun prev =>
        let newResults :=
          results prev ++ [ {| page_number := p; ocr_text := txt; status := st;
                               result_error := err; page_image := img |} ] in
        {| total_pages := total_pages prev; results := newResults;
           processing_page := None;
           api_calls_made := api_calls_made prev; complete := complete prev |}) a
  | Complete n =>
      setLoading false
        (updateStreamingState (fun prev =>
           {| total_pages := total_pages prev; results := results prev;
              processing_page := processing_page prev;
              api_calls_made := Some n; complete := true |}) a)
  | Error m =>
      setLoading false (setError m a)
  end.

Definition dispatch (d : SSEData) (a : App) : App :=
  match d with
  | Event e => apply_event e a
  | Unrecognised => a
  end.

(* ================================================================= *)
(** ** Submission and reset *)

(** The state [handleSubmit] installs before it opens the stream
    (lines 87-91). *)
Definition initialStreamingState : StreamingState :=
  {| total_pages := 0; results := []; processing_page := None;
     api_calls_made := None; complete := false |}.

(** [handleSubmit] up to the request (lines 79-91). *)
Definition handleSubmit_begin (a : App) : App :=
  match file a with
  | None => setError "Please select a PDF file" a
  | Some _ =>
      setStreamingState (Some initialStreamingState)
        (setCurrentPageIndex 0 (setError EmptyString (setLoading true a)))
  end.

Definition handleReset (a : App) : App :=
  setCurrentPageIndex 0
    (setLoading false (setError EmptyString (setStreamingState None (setFile None a)))).

(* ================================================================= *)
(** ** Navigation (lines 221-238) *)

Definition handleNextPage (a : App) : App :=
  match streamingState a with
  | Some s =>
      if currentPageIndex a <? Z.of_nat (List.length (results s)) - 1
      then setCurrentPageIndex (currentPageIndex a + 1) a
      else a
  | None => a
  end.

Definition handlePrevPage (a : App) : App :=
  if currentPageIndex a >? 0
  then setCurrentPageIndex (currentPageIndex a - 1) a
  else a.

Definition handlePageClick (index : Z) (a : App) : App :=
  setCurrentPageIndex index a.

Definition hasResults (a : App) : bool :=
  match streamingState a with
  | Some s => 0 <? Z.of_nat (List.length (results s))
  | None => false
  end.

(** [a[i]] on an array: [undefined] when [i] is not an index of it. *)
Definition index_at {A : Type} (l : list A) (i : Z) : option A :=
  if i <? 0 then None else nth_error l (Z.to_nat i).

(** [currentResult]: [undefined] and [null] are both [None]. *)
Definition currentResult (a : App) : option OCRResult :=
  match streamingState a with
  | Some s =>
      if hasResults a then index_at (results s) (currentPageIndex a) else None
  | None => None
  end.

(* ================================================================= *)
(** ** Markdown export (lines 191-219) *)

Definition isSuccess (r : OCRResult) : bool := String.eqb (status r) "success".

(** The template of one page: [`# Page ${n}\n\n${text}\n\n---\n`]. *)
Definition page_markdown (result : OCRResult) : string :=
  "# Page " +++ JS.num (page_number result) +++ JS.nl +++ JS.nl +++
  JS.str (ocr_text result) +++ JS.nl +++ JS.nl +++ "---" +++ JS.nl.

Definition markdownContent (s : StreamingState) : string :=
  JS.join JS.nl (map page_markdown (filter isSuccess (results s))).

(** [fullContent]; [now] is what [new Date().toLocaleString()] returns at
    the time of the click. *)
Definition fullContent (f : option string) (now : string) (s : StreamingState) : string :=
  ("# OCR Results - " +++ JS.or_else f "Document" +++ JS.nl +++ JS.nl) +++
  ("**Total Pages:** " +++ JS.num (total_pages s) +++ JS.nl) +++
  ("**Successful Pages:** " +++
     JS.num (Z.of_nat (List.length (filter isSuccess (results s)))) +++ JS.nl) +++
  ("**Generated:** " +++ now +++ JS.nl +++ JS.nl) +++
  ("---" +++ JS.nl +++ JS.nl) +++
  markdownContent s.

(** The file the browser is asked to save: [link.download] and the content
    of the blob. *)
Record Download := {
  download : string;
  content : string
}.

Definition download_name (f : option string) : string :=
  JS.or_else (option_map (JS.replace ".pdf" EmptyString) f) "ocr-results" +++ ".md".

(** [handleDownloadMarkdown]: nothing is saved when there is no state or no
    result yet. *)
Definition handleDownloadMarkdown (now : string) (a : App) : option Download :=
  match streamingState a with
  | None => None
  | Some s =>
      if (List.length (results s) =? 0)%nat then None
      else Some {| download := download_name (file a);
                   content := fullContent (file a) now s |}
  end.

(* ================================================================= *)
(** ** The read/decode loop of handleSubmit (lines 106-176) *)

(** What the loop writes to the console: [console.log('SSE received:', ...)]
    for a frame that parsed, [console.error('Error parsing SSE data:', ...)]
    for one that did not.  The count that the updater of a result logs is
    left out. *)
Inductive LogEntry :=
| SSE_received (data : SSEData)
| Error_parsing (line : string).

Section ReadLoop.

(** [TextDecoder]: a decoder that consumes bytes in order, keeps what it
    needs between calls ([stream: true]) and emits text as it goes. *)
Variable decoder_state : Type.
Variable decode_byte : decoder_state -> byte -> decoder_state * string.

(** [JSON.parse] followed by the read of [data.type]: [None] when either
    throws (a syntax error, or [null] which has no [type]), which lands in
    the [catch] of the line. *)
Variable JSON_parse : string -> option SSEData.

(** [decoder.decode(value, { stream: true })] *)
Fixpoint decode (d : decoder_state) (value : list byte) : decoder_state * string :=
  match value with
  | [] => (d, EmptyString)
  | b :: value' =>
      let (d1, t1) := decode_byte d b in
      let (d2, t2) := decode d1 value' in
      (d2, t1 +++ t2)
  end.

(** The variables of the loop together with the state and the console. *)
Record Reader := {
  decoder : decoder_state;
  buffer : string;
  app : App;
  console : list LogEntry
}.

(** The body of [for (const line of lines)]. *)
Definition process_line (st : Reader) (line : string) : Reader :=
  if JS.startsWith "data: " line then
    match JSON_parse (JS.slice 6 line) with
    | Some data =>
        {| decoder := decoder st; buffer := buffer st;
           app := dispatch data (app st);
           console := console st ++ [SSE_received data] |}
    | None =>
        {| decoder := decoder st; buffer := buffer st;
           app := app st;
           console := console st ++ [Error_parsing line] |}
    end
  else st.

(** [for (const line of lines)] *)
Definition process_lines (lines : list string) (st : Reader) : Reader :=
  fold_left process_line lines st.

(** One turn of [while (true)] with [done] false: decode, split, keep the
    last piece, run the lines. *)
Definition read_chunk (st : Reader) (value : list byte) : Reader :=
  let (d, text) := decode (decoder st) value in
  let buffer1 := buffer st +++ text in
  let lines := JS.split JS.LF buffer1 in
  let (last, lines') := JS.pop lines in
  process_lines lines'
    {| decoder := d; buffer := JS.or_empty last;
       app := app st; console := console st |}.

(** The turn with [done] true. *)
Definition read_done (st : Reader) : Reader :=
  {| decoder := decoder st; buffer := buffer st;
     app := setLoading false (app st); console := console st |}.

(** The loop over the chunks the response body delivers, from an empty
    buffer and a new decoder. *)
Definition read_loop (new_decoder : decoder_state) (body : list (list byte)) (a : App) : Reader :=
  read_done
    (fold_left read_chunk body
       {| decoder := new_decoder; buffer := EmptyString; app := a; console := [] |}).

(** [handleSubmit] on a response that is [ok] and whose body is read to
    its end. *)
Definition handleSubmit (new_decoder : decoder_state) (body : list (list byte)) (a : App) : App :=
  match file a with
  | None => handleSubmit_begin a
  | Some _ => app (read_loop new_decoder body (handleSubmit_begin a))
  end.

(** The typed events among the console entries, in order. *)
Fixpoint events_of (log : list LogEntry) : list StreamEvent :=
  match log with
  | [] => []
  | SSE_received (Event e) :: log' => e :: events_of log'
  | _ :: log' => events_of log'
  end.

(** What one line adds to the console. *)
Definition line_log (line : string) : list LogEntry :=
  if JS.startsWith "data: " line then
    match JSON_parse (JS.slice 6 line) with
    | Some data => [SSE_received data]
    | None => [Error_parsing line]
    end
  else [].

(** The typed events that a sequence of lines carries. *)
Definition line_events (lines : list string) : list StreamEvent :=
  events_of (flat_map line_log lines).

End ReadLoop.

Arguments decoder {decoder_state} _.
Arguments buffer {decoder_state} _.
Arguments app {decoder_state} _.
Arguments console {decoder_state} _.
Arguments decode {decoder_state} decode_byte d value.
Arguments process_line {decoder_state} JSON_parse st line.
Arguments process_lines {decoder_state} JSON_parse lines st.
Arguments read_chunk {decoder_state} decode_byte JSON_parse st value.
Arguments read_done {decoder_state} st.
Arguments read_loop {decoder_state} decode_byte JSON_parse new_decoder body a.
Arguments handleSubmit {decoder_state} decode_byte JSON_parse new_decoder body a.

(** A text without line feed: what a line is, and what the buffer holds. *)
Fixpoint no_LF (s : string) : bool :=
  match s with
  | EmptyString => true
  | String c s' => negb (Ascii.eqb c JS.LF) && no_LF s'
  end.

(** The text of a sequence of lines, each ended by its line feed. *)
Fixpoint lines_text (lines : list string) : string :=
  match lines with
  | [] => EmptyString
  | l :: lines' => l +++ JS.nl +++ lines_text lines'
  end.

(** [lines] and [buffer] after [split] and [pop]. *)
Definition cut (s : string) : list string * string :=
  let (last, lines) := JS.pop (JS.split JS.LF s) in (lines, JS.or_empty last).

(** The reducer over a sequence of events. *)
Definition apply_events (evs : list StreamEvent) (a : App) : App :=
  fold_left (fun a e => apply_event e a) evs a.

(* ================================================================= *)
(** ** A concrete decoder and a parser for the frames of the protocol

    Instances of the two parameters of the read loop, to run it on concrete
    streams.  The decoder is [TextDecoder] on well-formed UTF-8 without a
    byte order mark, where the text, in its UTF-8 rendering, is the bytes.
    The parser reads a JSON value that is a scalar or an object of scalars,
    which covers the frames of the protocol as they are written below, and
    it is used on such frames only.  It is narrower than [JSON.parse]: a
    number with a fraction or an exponent, a [\u] escape and a nested value
    are parse errors here; and a frame of a known [type] whose fields are
    missing or not of the types of the interfaces, which the handler would
    apply as it is, has no typed counterpart and is read as
    [Unrecognised]. *)

Module Wire.

Definition decode_byte (_ : unit) (b : byte) : unit * string :=
  (tt, String (ascii_of_byte b) EmptyString).

Inductive scalar :=
| JNull
| JBool (b : bool)
| JNum (n : Z)
| JStr (s : string).

Inductive value :=
| JScalar (x : scalar)
| JObj (members : list (string * scalar)).

Definition dq : ascii := "034"%char.

Definition is_ws (c : ascii) : bool :=
  Ascii.eqb c " " || Ascii.eqb c "009" || Ascii.eqb c "010" || Ascii.eqb c "013".

Fixpoint skip_ws (s : string) : string :=
  match s with
  | String c s' => if is_ws c then skip_ws s' else s
  | EmptyString => EmptyString
  end.

Definition unescape (e : ascii) : option ascii :=
  if Ascii.eqb e dq then Some dq
  else if Ascii.eqb e "\" then Some "\"%char
  else if Ascii.eqb e "/" then Some "/"%char
  else if Ascii.eqb e "n" then Some "010"%char
  else if Ascii.eqb e "t" then Some "009"%char
  else if Ascii.eqb e "r" then Some "013"%char
  else if Ascii.eqb e "b" then Some "008"%char
  else if Ascii.eqb e "f" then Some "012"%char
  else None.

(** The characters of a string literal after its opening quote, and what
    follows the closing one. *)
Fixpoint parse_string (s : string) : option (string * string) :=
  match s with
  | EmptyString => None
  | String c s' =>
      if Ascii.eqb c dq then Some (EmptyString, s')
      else if Ascii.eqb c "\" then
        match s' with
        | String e s'' =>
            match unescape e, parse_string s'' with
            | Some c', Some (t, r) => Some (String c' t, r)
            | _, _ => None
            end
        | EmptyString => None
        end
      else if (nat_of_ascii c <? 32)%nat then None
      else match parse_string s' with
           | Some (t, r) => Some (String c t, r)
           | None => None
           end
  end.

Definition is_digit (c : ascii) : bool :=
  ((48 <=? nat_of_ascii c) && (nat_of_ascii c <=? 57))%nat.

Fixpoint parse_digits (acc : Z) (s : string) : Z * string :=
  match s with
  | String c s' =>
      if is_digit c then parse_digits (acc * 10 + (Z.of_nat (nat_of_ascii c) - 48)) s'
      else (acc, s)
  | EmptyString => (acc, EmptyString)
  end.

Definition integer_end (r : string) : bool :=
  match r with
  | String c _ => negb (Ascii.eqb c "." || Ascii.eqb c "e" || Ascii.eqb c "E")
  | EmptyString => true
  end.

(** A zero that a digit follows starts no number. *)
Definition leading_zero (ds : string) : bool :=
  match ds with
  | String "0" (String c _) => is_digit c
  | _ => false
  end.

Definition parse_number (s : string) : option (scalar * string) :=
  let (neg, ds) :=
    match s with
    | String "-" s' => (true, s')
    | _ => (false, s)
    end in
  match ds with
  | String c _ =>
      if is_digit c && negb (leading_zero ds) then
        let (n, r) := parse_digits 0 ds in
        if integer_end r then Some (JNum (if neg then - n else n), r) else None
      else None
  | EmptyString => None
  end.

Definition parse_scalar (s : string) : option (scalar * string) :=
  match s with
  | String c r =>
      if Ascii.eqb c dq then
        match parse_string r with
        | Some (t, r') => Some (JStr t, r')
        | None => None
        end
      else if String.prefix "true" s then Some (JBool true, JS.slice 4 s)
      else if String.prefix "false" s then Some (JBool false, JS.slice 5 s)
      else if String.prefix "null" s then Some (JNull, JS.slice 4 s)
      else parse_number s
  | EmptyString => None
  end.

(** The members of an object from its first key on, up to the closing
    brace. *)
Fixpoint parse_members (fuel : nat) (s : string) : option (list (string * scalar) * string) :=
  match fuel with
  | O => None
  | S fuel' =>
      match s with
      | String c r =>
          if Ascii.eqb c dq then
            match parse_string r with
            | Some (k, r1) =>
                match skip_ws r1 with
                | String ":" r2 =>
                    match parse_scalar (skip_ws r2) with
                    | Some (v, r3) =>
                        match skip_ws r3 with
                        | String "," r4 =>
                            match parse_members fuel' (skip_ws r4) with
                            | Some (m, r5) => Some ((k, v) :: m, r5)
                            | None => None
                            end
                        | String "}" r4 => Some ([(k, v)], r4)
                        | _ => None
                        end
                    | None => None
                    end
                | _ => None
                end
            | None => None
            end
          else None
      | EmptyString => None
      end
  end.

Definition parse_value (s : string) : option (value * string) :=
  match s with
  | String "{" r =>
      match skip_ws r with
      | String "}" r' => Some (JObj [], r')
      | r1 =>
          match parse_members (String.length r1) r1 with
          | Some (m, r') => Some (JObj m, r')
          | None => None
          end
      end
  | _ =>
      match parse_scalar s with
      | Some (x, r') => Some (JScalar x, r')
      | None => None
      end
  end.

(** The whole text is one value, white space around it allowed. *)
Definition parse (s : string) : option value :=
  match parse_value (skip_ws s) with
  | Some (v, r) =>
      match skip_ws r with
      | EmptyString => Some v
      | String _ _ => None
      end
  | None => None
  end.

(** [o[k]]: of two members with one key the later one counts. *)
Fixpoint prop (k : string) (m : list (string * scalar)) : option scalar :=
  match m with
  | [] => None
  | (k', v) :: m' =>
      match prop k m' with
      | Some v' => Some v'
      | None => if String.eqb k k' then Some v else None
      end
  end.

Definition prop_string (k : string) (m : list (string * scalar)) : option string :=
  match prop k m with
  | Some (JStr s) => Some s
  | _ => None
  end.

(** The parsed value as the handler reads it. *)
Definition frame (v : value) : option SSEData :=
  match v with
  | JScalar JNull => None
  | JObj m =>
      Some
        match prop "type" m with
        | Some (JStr t) =>
            if String.eqb t "metadata" then
              match prop "total_pages" m with
              | Some (JNum n) => Event (Metadata n)
              | _ => Unrecognised
              end
            else if String.eqb t "processing" then
              match prop "page_number" m with
              | Some (JNum n) => Event (Processing n)
              | _ => Unrecognised
              end
            else if String.eqb t "result" then
              match prop "page_number" m, prop "status" m with
              | Some (JNum n), Some (JStr st) =>
                  Event (Result n (prop_string "ocr_text" m) st
                           (prop_string "error" m) (prop_string "page_image" m))
              | _, _ => Unrecognised
              end
            else if String.eqb t "complete" then
              match prop "api_calls_made" m with
              | Some (JNum n) => Event (Complete n)
              | _ => Unrecognised
              end
            else if String.eqb t "error" then
              match prop "message" m with
              | Some (JStr s) => Event (Error s)
              | _ => Unrecognised
              end
            else Unrecognised
        | _ => Unrecognised
        end
  | JScalar _ => Some Unrecognised
  end.

Definition JSON_parse (s : string) : option SSEData :=
  match parse s with
  | Some v => frame v
  | None => None
  end.

(** Writing frames: a quoted word, a member, a frame line. *)
Definition q (s : string) : string := String dq (s +++ String dq EmptyString).

Definition member (k v : string) : string := q k +++ ":" +++ v.

Definition data_line (members : list string) : string :=
  "data: {" +++ JS.join "," members +++ "}".

Definition metadata_line (n : Z) : string :=
  data_line [member "type" (q "metadata"); member "total_pages" (JS.num n)].

Definition success_line (n : Z) (text : string) : string :=
  data_line [member "type" (q "result"); member "page_number" (JS.num n);
             member "status" (q "success"); member "ocr_text" (q text)].

Definition failure_line (n : Z) (msg : string) : string :=
  data_line [member "type" (q "result"); member "page_number" (JS.num n);
             member "status" (q "error"); member "error" (q msg)].

Definition complete_line (n : Z) : string :=
  data_line [member "type" (q "complete"); member "api_calls_made" (JS.num n)].

(** A frame on the wire: the line and the blank line that ends it. *)
Definition on_wire (line : string) : list byte :=
  list_byte_of_string (line +++ JS.nl +++ JS.nl).

Definition run (body : list (list byte)) (a : App) : Reader unit :=
  read_loop decode_byte JSON_parse tt body a.

End Wire.

(* ================================================================= *)
(** ** States used in examples *)

Definition page (n : Z) (text : string) : OCRResult :=
  {| page_number := n; ocr_text := Some text; status := "success";
     result_error := None; page_image := None |}.

Definition failed_page (n : Z) (msg : string) : OCRResult :=
  {| page_number := n; ocr_text := None; status := "error";
     result_error := Some msg; page_image := None |}.

(** The component with [sample.pdf] chosen and nothing submitted. *)
Definition chosen : App :=
  {| file := Some "sample.pdf"; loading := false; streamingState := None;
     error := EmptyString; currentPageIndex := 0 |}.

(** The component after a submission that received [evs]. *)
Definition received (evs : list StreamEvent) : App :=
  apply_events evs (handleSubmit_begin chosen).

(** The stream of a job of three pages whose second page fails, as bytes. *)
Definition three_pages : list byte :=
  Wire.on_wire (Wire.metadata_line 3) ++
  Wire.on_wire (Wire.success_line 1 "alpha") ++
  Wire.on_wire (Wire.failure_line 2 "timeout") ++
  Wire.on_wire (Wire.success_line 3 "gamma") ++
  Wire.on_wire (Wire.complete_line 3).

(** A component showing [rs], the [i]-th selected, for [sample.pdf]. *)
Definition showing (rs : list OCRResult) (i : Z) : App :=
  {| file := Some "sample.pdf"; loading := true;
     streamingState :=
       Some {| total_pages := 3; results := rs; processing_page := None;
               api_calls_made := None; complete := false |};
     error := EmptyString; currentPageIndex := i |}.

(* ================================================================= *)
(** ** Properties of the view state *)

(** The selected index points at a result. *)
Definition selection_in_range (a : App) : Prop :=
  exists s, streamingState a = Some s /\
            0 <= currentPageIndex a < Z.of_nat (List.length (results s)).

(** The outcomes that the [Result] events of a sequence carry, in order. *)
Fixpoint outcomes (evs : list StreamEvent) : list OCRResult :=
  match evs with
  | [] => []
  | Result p txt st err img :: evs' =>
      {| page_number := p; ocr_text := txt; status := st;
         result_error := err; page_image := img |} :: outcomes evs'
  | _ :: evs' => outcomes evs'
  end.

(** The states of one submission: what [handleSubmit] installs, and what
    the frames of the stream and the navigation that the page offers make
    of it.  A thumbnail exists for each index of [results] and for no
    other. *)
Inductive session : App -> Prop :=
| session_submit (a : App) (f : string) :
    file a = Some f -> session (handleSubmit_begin a)
| session_event (a : App) (e : StreamEvent) :
    session a -> session (apply_event e a)
| session_next (a : App) :
    session a -> session (handleNextPage a)
| session_prev (a : App) :
    session a -> session (handlePrevPage a)
| session_click (a : App) (s : StreamingState) (index : Z) :
    session a -> streamingState a = Some s ->
    0 <= index < Z.of_nat (List.length (results s)) ->
    session (handlePageClick index a).

(** How many results carry the page number [p]. *)
Definition pages_numbered (p : Z) (rs : list OCRResult) : nat :=
  List.length (filter (fun r => page_number r =? p) rs).

(* ================================================================= *)
(** ** The export in parts, and in the words of the specification *)

(** The lines of the document above the pages. *)
Definition export_header (f : option string) (now : string) (s : StreamingState) : string :=
  ("# OCR Results - " +++ JS.or_else f "Document" +++ JS.nl +++ JS.nl) +++
  ("**Total Pages:** " +++ JS.num (total_pages s) +++ JS.nl) +++
  ("**Successful Pages:** " +++
     JS.num (Z.of_nat (List.length (filter isSuccess (results s)))) +++ JS.nl) +++
  ("**Generated:** " +++ now +++ JS.nl +++ JS.nl) +++
  ("---" +++ JS.nl +++ JS.nl).

(** The pages of a document that shows [rs], in the order of [rs]. *)
Definition page_sections (rs : list OCRResult) : string :=
  JS.join JS.nl (map page_markdown rs).

Definition page_le (r1 r2 : OCRResult) : Prop := page_number r1 <= page_number r2.

(** Sorting by page number, by insertion; entries of one page number keep
    their order. *)
Fixpoint insert_by_page (r : OCRResult) (rs : list OCRResult) : list OCRResult :=
  match rs with
  | [] => [r]
  | r' :: rs' =>
      if page_number r <=? page_number r' then r :: rs
      else r' :: insert_by_page r rs'
  end.

Fixpoint sort_by_page (rs : list OCRResult) : list OCRResult :=
  match rs with
  | [] => []
  | r :: rs' => insert_by_page r (sort_by_page rs')
  end.

(** What the specification says is exported, in its words and not from the
    code: the outcomes with [status = success], in ascending page order. *)
Definition spec_exported_outcomes (rs : list OCRResult) : list OCRResult :=
  sort_by_page (filter isSuccess rs).

(* ================================================================= *)
(** ** File selection (lines 34-76) *)

(** A [File] as the handlers read it. *)
Record File := {
  name : string;
  type : string
}.

(** [handleFileChange]; [files] is [e.target.files], with no file in it
    when it is [null] or empty. *)
Definition handleFileChange (files : list File) (a : App) : App :=
  match files with
  | selectedFile :: _ =>
      if String.eqb (type selectedFile) "application/pdf" then
        setCurrentPageIndex 0
          (setStreamingState None
             (setError EmptyString (setFile (Some (name selectedFile)) a)))
      else
        setFile None (setError "Please upload a PDF file" a)
  | [] => a
  end.

(** [handleDrag] on the cell [dragActive], which is kept apart from [App];
    [event_type] is [e.type]. *)
Definition handleDrag (event_type : string) (dragActive : bool) : bool :=
  if String.eqb event_type "dragenter" || String.eqb event_type "dragover" then true
  else if String.eqb event_type "dragleave" then false
  else dragActive.

(** [handleDrop]: the new [dragActive] and the new state; [files] is
    [e.dataTransfer.files]. *)
Definition handleDrop (files : list File) (a : App) : bool * App :=
  (false,
   match files with
   | droppedFile :: _ =>
       if String.eqb (type droppedFile) "application/pdf" then
         setCurrentPageIndex 0
           (setStreamingState None
              (setError EmptyString (setFile (Some (name droppedFile)) a)))
       else
         setFile None (setError "Please upload a PDF file" a)
   | [] => a
   end).

(* ================================================================= *)
(** ** The whole of handleSubmit, with its failures (lines 78-181) *)

(** How the reads of the body end: [done], or a read that rejects with an
    error whose [message] may be missing. *)
Inductive ReadEnd :=
| Done
| Failed (message : option string).

Record ResponseBody := {
  chunks : list (list byte);
  ending : ReadEnd
}.

(** What [fetch] gives: a rejection, or a response with its [ok], its
    [status] and its [body], which may be [null]. *)
Inductive FetchOutcome :=
| Rejected (message : option string)
| Response (ok : bool) (status : Z) (body : option ResponseBody).

(** The outer [catch]: [setError(err.message || '...')], [setLoading(false)]. *)
Definition catch_error (message : option string) (a : App) : App :=
  setLoading false
    (setError (JS.or_else message "An error occurred while processing the PDF") a).

Section Fetch.

Variable decoder_state : Type.
Variable decode_byte : decoder_state -> byte -> decoder_state * string.
Variable JSON_parse : string -> option SSEData.

(** The loop up to, and without, its last turn. *)
Definition read_chunks (new_decoder : decoder_state) (body : list (list byte)) (a : App)
  : Reader decoder_state :=
  fold_left (read_chunk decode_byte JSON_parse) body
    {| decoder := new_decoder; buffer := EmptyString; app := a; console := [] |}.

Definition handleSubmit_fetch (new_decoder : decoder_state) (r : FetchOutcome) (a : App) : App :=
  match file a with
  | None => handleSubmit_begin a
  | Some _ =>
      let a0 := handleSubmit_begin a in
      match r with
      | Rejected message => catch_error message a0
      | Response ok status body =>
          if negb ok then
            catch_error (Some ("HTTP error! status: " +++ JS.num status)) a0
          else
            match body with
            | None => catch_error (Some "Failed to get response reader") a0
            | Some b =>
                let st := read_chunks new_decoder (chunks b) a0 in
                match ending b with
                | Done => app (read_done st)
                | Failed message => catch_error message (app st)
                end
            end
      end
  end.

End Fetch.

Arguments read_chunks {decoder_state} decode_byte JSON_parse new_decoder body a.
Arguments handleSubmit_fetch {decoder_state} decode_byte JSON_parse new_decoder r a.

(* ================================================================= *)
(** ** What the page shows (lines 237-477) *)

(** [disabled] of the Previous button. *)
Definition prevDisabled (a : App) : bool := currentPageIndex a =? 0.

(** [disabled] of the Next button, in the results section, where the state
    is [s]. *)
Definition nextDisabled (a : App) (s : StreamingState) : bool :=
  currentPageIndex a >=? Z.of_nat (List.length (results s)) - 1.

(** [disabled] of the Download button. *)
Definition downloadDisabled (a : App) (s : StreamingState) : bool :=
  loading a || (List.length (filter isSuccess (results s)) =? 0)%nat.

(** The error box: it is part of the upload section, which is shown while
    there is no result, and is rendered for a non-empty [error]. *)
Definition displayedError (a : App) : option string :=
  if hasResults a then None
  else if String.eqb (error a) EmptyString then None
  else Some (error a).

(** One thumbnail of [results.map((result, index) => ...)]: its [key], the
    index its [onClick] passes to [handlePageClick], whether its class holds
    [active], and the status in its class.  The thumbnail of the page being
    processed, which has no [onClick], is not among them. *)
Record Thumbnail := {
  key : Z;
  onClick : Z;
  active : bool;
  thumbnail_status : string
}.

Fixpoint thumbnails_from (index : Z) (selected : Z) (rs : list OCRResult) : list Thumbnail :=
  match rs with
  | [] => []
  | result :: rs' =>
      {| key := page_number result; onClick := index;
         active := index =? selected; thumbnail_status := status result |}
      :: thumbnails_from (index + 1) selected rs'
  end.

Definition thumbnails (a : App) (s : StreamingState) : list Thumbnail :=
  thumbnails_from 0 (currentPageIndex a) (results s).


(* ================================================================= *)
(** ** Notions used to state what the stream leaves *)

(** The events that end [loading]. *)
Definition ends_loading (e : StreamEvent) : bool :=
  match e with
  | Complete _ | Error _ => true
  | _ => false
  end.

Definition is_complete (e : StreamEvent) : bool :=
  match e with
  | Complete _ => true
  | _ => false
  end.


(** A text without full stop. *)
Fixpoint no_dot (s : string) : bool :=
  match s with
  | EmptyString => true
  | String c s' => negb (Ascii.eqb c ".") && no_dot s'
  end.

(* ----------------------------------------------------------------- *)
(** *** What one event does to each cell *)

Lemma apply_event_file (e : StreamEvent) (a : App) :
  file (apply_event e a) = file a.
Proof. destruct e; reflexivity. Qed.

Lemma apply_event_index (e : StreamEvent) (a : App) :
  currentPageIndex (apply_event e a) = currentPageIndex a.
Proof. destruct e; reflexivity. Qed.

Lemma apply_events_file (evs : list StreamEvent) (a : App) :
  file (apply_events evs a) = file a.
Proof.
  revert a; induction evs as [|e evs IH]; intros a; simpl; [reflexivity|].
  unfold apply_events in IH; rewrite IH; apply apply_event_file.
Qed.


(** An event leaves a state in place and only ever extends [results]. *)
Lemma apply_event_results (e : StreamEvent) (a : App) (s : StreamingState) :
  streamingState a = Some s ->
  exists s', streamingState (apply_event e a) = Some s' /\
             results s' = results s ++ outcomes [e] /\
             (complete s = true -> complete s' = true).
Proof.
  intros Hs; destruct e; simpl; unfold updateStreamingState; simpl; rewrite ?Hs; simpl;
    eexists; (split; [reflexivity|]); simpl; rewrite ?app_nil_r; auto.
Qed.

Lemma outcomes_app (xs ys : list StreamEvent) :
  outcomes (xs ++ ys) = outcomes xs ++ outcomes ys.
Proof.
  induction xs as [|x xs IH]; simpl; [reflexivity|].
  destruct x; simpl; rewrite ?IH; reflexivity.
Qed.

Lemma apply_events_results (evs : list StreamEvent) (a : App) (s : StreamingState) :
  streamingState a = Some s ->
  exists s', streamingState (apply_events evs a) = Some s' /\
             results s' = results s ++ outcomes evs /\
             (complete s = true -> complete s' = true).
Proof.
  revert a s; induction evs as [|e evs IH]; intros a s Hs.
  - exists s; simpl; rewrite app_nil_r; auto.
  - destruct (apply_event_results e a s Hs) as (s1 & H1 & R1 & C1).
    destruct (IH _ _ H1) as (s2 & H2 & R2 & C2).
    exists s2; split; [exact H2|]; split; [|auto].
    rewrite R2, R1, <- app_assoc.
    change (e :: evs) with ([e] ++ evs); rewrite outcomes_app; reflexivity.
Qed.

(** The selection of a submission: index 0 while there is no result, an
    index of [results] from then on. *)
Lemma session_selection (a : App) :
  session a ->
  exists s, streamingState a = Some s /\
            0 <= currentPageIndex a /\
            (currentPageIndex a = 0 \/
             currentPageIndex a < Z.of_nat (List.length (results s))).
Proof.
  induction 1 as [a f Hf | a e _ IH | a _ IH | a _ IH | a s i _ _ Hs Hi].
  - unfold handleSubmit_begin; rewrite Hf; simpl.
    eexists; split; [reflexivity|]; lia.
  - destruct IH as (s & Hs & H0 & Hr).
    destruct (apply_event_results e a s Hs) as (s' & Hs' & Hres & _).
    exists s'; split; [exact Hs'|]; rewrite apply_event_index.
    split; [exact H0|]. rewrite Hres, length_app; lia.
  - destruct IH as (s & Hs & H0 & Hr).
    unfold handleNextPage; rewrite Hs.
    destruct (Z.ltb_spec (currentPageIndex a) (Z.of_nat (List.length (results s)) - 1)).
    + exists s; simpl; split; [exact Hs|]; lia.
    + exists s; auto.
  - destruct IH as (s & Hs & H0 & Hr).
    unfold handlePrevPage.
    destruct (Z.gtb_spec (currentPageIndex a) 0).
    + exists s; simpl; split; [exact Hs|]; lia.
    + exists s; auto.
  - exists s; simpl; split; [exact Hs|]; lia.
Qed.

(* ================================================================= *)
(** ** Navigation *)






(** [handlePageClick] has no guard of its own: its guard is the rendering.
    Called with 5 on two results, which no thumbnail does, it would store 5. *)
Remark handlePageClick_has_no_guard :
  currentPageIndex (handlePageClick 5 (showing [page 1 "a"; page 2 "b"] 0)) = 5 /\
  ~ selection_in_range (handlePageClick 5 (showing [page 1 "a"; page 2 "b"] 0)) /\
  find (fun t => onClick t =? 5)
       (thumbnails (showing [page 1 "a"; page 2 "b"] 0)
          {| total_pages := 3; results := [page 1 "a"; page 2 "b"];
             processing_page := None; api_calls_made := None; complete := false |}) = None.
Proof.
  split; [reflexivity|]. split; [|reflexivity].
  intros (s & Hs & Hr). injection Hs as <-. simpl in Hr. lia.
Qed.

(* ================================================================= *)
(** ** The reducer *)

(** C4, as the component has it: a [Metadata] event sets [total_pages] and
    leaves [results] and every other field as they were; [results] is
    emptied by [handleSubmit] when a submission starts, so that the events of
    a stream, folded from the state of a new submission, give the outcomes of
    its [Result] events in order, and give them again, not doubled, when the
    same events are folded after a second submission on top of the first. *)
Theorem metadata_sets_total_pages (a : App) (f : string) (s : StreamingState)
    (n : Z) (evs : list StreamEvent)
    (Hs : streamingState a = Some s) (Hf : file a = Some f) :
  streamingState (apply_event (Metadata n) a) =
    Some {| total_pages := n; results := results s;
            processing_page := processing_page s;
            api_calls_made := api_calls_made s; complete := complete s |} /\
  (exists s1, streamingState (apply_events evs (handleSubmit_begin a)) = Some s1 /\
              results s1 = outcomes evs) /\
  (exists s2, streamingState
                (apply_events evs
                   (handleSubmit_begin (apply_events evs (handleSubmit_begin a)))) = Some s2 /\
              results s2 = outcomes evs).
Proof.
  split; [simpl; unfold updateStreamingState; rewrite Hs; reflexivity|].
  assert (Hfold : forall b g, file b = Some g ->
            exists s1, streamingState (apply_events evs (handleSubmit_begin b)) = Some s1 /\
                       results s1 = outcomes evs).
  { intros b g Hb.
    destruct (apply_events_results evs (handleSubmit_begin b) initialStreamingState)
      as (s1 & H1 & R1 & _).
    - unfold handleSubmit_begin; rewrite Hb; reflexivity.
    - exists s1; split; [exact H1|exact R1]. }
  split.
  - apply (Hfold a f Hf).
  - apply (Hfold _ f). rewrite apply_events_file.
    unfold handleSubmit_begin; rewrite Hf; exact Hf.
Qed.

Lemma metadata_sets_total_pages_witness :
  streamingState (apply_event (Metadata 7) (showing [page 1 "a"] 0)) =
    Some {| total_pages := 7; results := [page 1 "a"]; processing_page := None;
            api_calls_made := None; complete := false |}.
Proof.
  apply (metadata_sets_total_pages (showing [page 1 "a"] 0) "sample.pdf" _ 7
           [Metadata 1; Result 1 (Some "a") "success" None None; Complete 1]
           eq_refl eq_refl).
Defined.

(** Against C4 as stated: a [Metadata] event on a state that holds a result
    does not clear [results]; and the events of a stream folded a second
    time on top of the first, with no submission in between, leave every
    outcome twice. *)
Lemma metadata_keeps_results :
  (exists s', streamingState (apply_event (Metadata 7) (showing [page 1 "a"] 0)) = Some s' /\
              total_pages s' = 7 /\ results s' = [page 1 "a"] /\ results s' <> []) /\
  (exists s', streamingState
                (apply_events [Metadata 1; Result 1 (Some "a") "success" None None]
                   (received [Metadata 1; Result 1 (Some "a") "success" None None])) = Some s' /\
              results s' = [page 1 "a"; page 1 "a"]).
Proof.
  split.
  - eexists; split; [reflexivity|]; simpl; repeat split; discriminate.
  - eexists; split; reflexivity.
Qed.

(** C5: in a submission, a [Result] event appends its outcome at the end of
    [results] and clears [processing_page], the other fields staying; and
    when [results] was empty the selected index is 0 and the selected result
    is that outcome. *)
Theorem result_appends_and_is_selected (a : App) (s : StreamingState)
    (p : Z) (txt : option string) (st : string) (err img : option string)
    (Hrun : session a) (Hs : streamingState a = Some s) :
  let r := {| page_number := p; ocr_text := txt; status := st;
              result_error := err; page_image := img |} in
  let a' := apply_event (Result p txt st err img) a in
  streamingState a' =
    Some {| total_pages := total_pages s; results := results s ++ [r];
            processing_page := None;
            api_calls_made := api_calls_made s; complete := complete s |} /\
  (results s = [] -> currentPageIndex a' = 0 /\ currentResult a' = Some r).
Proof.
  intros r a'.
  assert (Ha' : streamingState a' =
    Some {| total_pages := total_pages s; results := results s ++ [r];
            processing_page := None;
            api_calls_made := api_calls_made s; complete := complete s |}).
  { unfold a'; simpl; unfold updateStreamingState; rewrite Hs; reflexivity. }
  split; [exact Ha'|].
  intros Hnil.
  destruct (session_selection a Hrun) as (s0 & Hs0 & H0 & Hr).
  rewrite Hs in Hs0; injection Hs0 as <-.
  rewrite Hnil in Hr; simpl in Hr.
  assert (Hi : currentPageIndex a' = 0) by (unfold a'; rewrite apply_event_index; lia).
  split; [exact Hi|].
  unfold currentResult, hasResults; rewrite Ha', Hi, Hnil; reflexivity.
Qed.

Lemma result_appends_and_is_selected_witness :
  currentResult
    (apply_event (Result 1 (Some "a") "success" None None)
       (apply_event (Metadata 2) (handleSubmit_begin (showing [page 9 "z"] 4)))) =
  Some (page 1 "a").
Proof.
  refine (proj2 (proj2 (result_appends_and_is_selected
            (apply_event (Metadata 2) (handleSubmit_begin (showing [page 9 "z"] 4)))
            _ 1 (Some "a") "success" None None _ eq_refl) eq_refl)).
  apply session_event. apply (session_submit _ "sample.pdf"). reflexivity.
Defined.

(** C6, as the component has it: a [Complete] event sets [complete] and
    records [api_calls_made], ends [loading] and leaves the other fields;
    whatever events follow, [complete] stays set and the results held at
    that point stay at the front of [results].  Later events are not
    refused: see [result_after_complete_is_appended]. *)
Theorem complete_is_kept (a : App) (s : StreamingState) (n : Z)
    (evs : list StreamEvent) (Hs : streamingState a = Some s) :
  streamingState (apply_event (Complete n) a) =
    Some {| total_pages := total_pages s; results := results s;
            processing_page := processing_page s;
            api_calls_made := Some n; complete := true |} /\
  loading (apply_event (Complete n) a) = false /\
  exists s', streamingState (apply_events evs (apply_event (Complete n) a)) = Some s' /\
             complete s' = true /\
             results s' = results s ++ outcomes evs.
Proof.
  assert (Hc : streamingState (apply_event (Complete n) a) =
    Some {| total_pages := total_pages s; results := results s;
            processing_page := processing_page s;
            api_calls_made := Some n; complete := true |}).
  { simpl; unfold updateStreamingState; rewrite Hs; reflexivity. }
  split; [exact Hc|]. split; [reflexivity|].
  destruct (apply_events_results evs _ _ Hc) as (s' & Hs' & Hr & Hcomp).
  exists s'; split; [exact Hs'|]; split; [apply Hcomp; reflexivity|exact Hr].
Qed.

Lemma complete_is_kept_witness :
  loading (apply_event (Complete 1) (showing [page 1 "a"] 0)) = false.
Proof.
  apply (complete_is_kept (showing [page 1 "a"] 0) _ 1 [Metadata 5] eq_refl).
Defined.

(** Against C6 as stated: after [Complete], a [Result] event still extends
    [results] and a [Metadata] event still changes [total_pages]. *)
Lemma result_after_complete_is_appended :
  exists s1 s2 s3,
    streamingState (apply_event (Complete 1) (showing [page 1 "a"] 0)) = Some s1 /\
    complete s1 = true /\
    streamingState
      (apply_event (Result 2 (Some "b") "success" None None)
         (apply_event (Complete 1) (showing [page 1 "a"] 0))) = Some s2 /\
    results s2 <> results s1 /\
    streamingState
      (apply_event (Metadata 9)
         (apply_event (Complete 1) (showing [page 1 "a"] 0))) = Some s3 /\
    total_pages s3 <> total_pages s1.
Proof.
  do 3 eexists. repeat split; simpl; discriminate.
Qed.

(** C7: an [Error] event records its message and ends [loading]; the
    streaming state ([total_pages], [results], every entry and their order),
    the selected index and the file are as before. *)
Theorem error_keeps_results (a : App) (message : string) :
  error (apply_event (Error message) a) = message /\
  loading (apply_event (Error message) a) = false /\
  streamingState (apply_event (Error message) a) = streamingState a /\
  currentPageIndex (apply_event (Error message) a) = currentPageIndex a /\
  currentResult (apply_event (Error message) a) = currentResult a /\
  file (apply_event (Error message) a) = file a.
Proof. repeat split. Qed.

(** C10: a [Result] event puts its outcome after the entries that are
    there, whatever its page number: every entry keeps its position, the
    length grows by one, and the number of entries that carry the page
    number of the event grows by one, also when it was not zero. *)
Theorem result_is_appended_unseen (a : App) (s : StreamingState)
    (p : Z) (txt : option string) (st : string) (err img : option string)
    (Hs : streamingState a = Some s) :
  exists s',
    streamingState (apply_event (Result p txt st err img) a) = Some s' /\
    results s' = results s ++ [ {| page_number := p; ocr_text := txt; status := st;
                                   result_error := err; page_image := img |} ] /\
    (forall i r, nth_error (results s) i = Some r -> nth_error (results s') i = Some r) /\
    List.length (results s') = S (List.length (results s)) /\
    pages_numbered p (results s') = S (pages_numbered p (results s)).
Proof.
  eexists; split; [simpl; unfold updateStreamingState; rewrite Hs; reflexivity|].
  simpl. split; [reflexivity|]. split; [|split].
  - intros i r Hi. rewrite nth_error_app1; [exact Hi|].
    apply nth_error_Some; congruence.
  - rewrite length_app; simpl; lia.
  - unfold pages_numbered. rewrite filter_app, length_app; simpl.
    rewrite Z.eqb_refl; simpl; lia.
Qed.

Lemma result_is_appended_unseen_witness :
  exists s',
    streamingState
      (apply_event (Result 1 (Some "again") "success" None None)
         (showing [page 1 "a"; page 2 "b"] 0)) = Some s' /\
    results s' = [page 1 "a"; page 2 "b"; page 1 "again"] /\
    pages_numbered 1 (results s') = 2%nat.
Proof.
  destruct (result_is_appended_unseen (showing [page 1 "a"; page 2 "b"] 0) _
              1 (Some "again") "success" None None eq_refl)
    as (s' & Hs' & Hr & _ & _ & Hn).
  exists s'; split; [exact Hs'|]; split; [exact Hr|exact Hn].
Defined.

(* ================================================================= *)
(** ** Export *)

Lemma append_assoc (x y z : string) : (x +++ y) +++ z = x +++ (y +++ z).
Proof. induction x as [|c x IH]; simpl; [reflexivity|rewrite IH; reflexivity]. Qed.

Lemma append_nil_r (x : string) : x +++ EmptyString = x.
Proof. induction x as [|c x IH]; simpl; [reflexivity|rewrite IH; reflexivity]. Qed.

Lemma fullContent_split (f : option string) (now : string) (s : StreamingState) :
  fullContent f now s = export_header f now s +++ page_sections (filter isSuccess (results s)).
Proof.
  unfold fullContent, export_header, markdownContent, page_sections.
  rewrite !append_assoc. reflexivity.
Qed.

Lemma sort_by_page_sorted (rs : list OCRResult) :
  StronglySorted page_le rs -> sort_by_page rs = rs.
Proof.
  induction 1 as [|r rs Hs IH Hall]; simpl; [reflexivity|].
  rewrite IH. destruct rs as [|r' rs']; simpl; [reflexivity|].
  inversion Hall as [|? ? Hle _]; subst. unfold page_le in Hle.
  destruct (Z.leb_spec (page_number r) (page_number r')); [reflexivity|lia].
Qed.

Lemma filter_sorted (f : OCRResult -> bool) (rs : list OCRResult) :
  StronglySorted page_le rs -> StronglySorted page_le (filter f rs).
Proof.
  induction 1 as [|r rs Hs IH Hall]; simpl; [constructor|].
  destruct (f r); [|exact IH].
  constructor; [exact IH|].
  rewrite Forall_forall in *. intros x Hx. apply Hall.
  apply filter_In in Hx. tauto.
Qed.

(** C8, as the component has it: with no result yet, or no streaming state,
    nothing is exported.  When there is a result, the document is the header
    followed by the pages of the outcomes with [status = success], in the
    order they have in [results]; an outcome is among them exactly when it
    is in [results] with that status, so none with [status = error] is; and
    where [results] is in ascending page order, these are the successful
    outcomes in ascending page order. *)
Theorem export_lists_successes (a : App) (s : StreamingState) (now : string)
    (Hs : streamingState a = Some s) :
  (results s = [] -> handleDownloadMarkdown now a = None) /\
  (forall a0 : App, streamingState a0 = None -> handleDownloadMarkdown now a0 = None) /\
  (results s <> [] ->
   exists d,
     handleDownloadMarkdown now a = Some d /\
     download d = download_name (file a) /\
     content d =
       export_header (file a) now s +++ page_sections (filter isSuccess (results s))) /\
  (forall r, In r (filter isSuccess (results s)) <->
             In r (results s) /\ status r = "success") /\
  (forall r, status r = "error" -> ~ In r (filter isSuccess (results s))) /\
  (StronglySorted page_le (results s) ->
   filter isSuccess (results s) = spec_exported_outcomes (results s)).
Proof.
  split; [|split; [|split; [|split; [|split]]]].
  - intros Hnil. unfold handleDownloadMarkdown. rewrite Hs, Hnil. reflexivity.
  - intros a0 H0. unfold handleDownloadMarkdown. rewrite H0. reflexivity.
  - intros Hres. unfold handleDownloadMarkdown. rewrite Hs.
    destruct (results s) as [|r0 rs] eqn:Hr; [congruence|].
    simpl Nat.eqb. cbv iota.
    eexists; split; [reflexivity|]. split; [reflexivity|]. simpl content.
    rewrite fullContent_split, Hr; reflexivity.
  - intros r. rewrite filter_In. unfold isSuccess. rewrite String.eqb_eq. tauto.
  - intros r He Hin. apply filter_In in Hin. destruct Hin as [_ Hin].
    unfold isSuccess in Hin. rewrite He in Hin. discriminate.
  - intros Hsorted. unfold spec_exported_outcomes.
    symmetry. apply sort_by_page_sorted, filter_sorted, Hsorted.
Qed.

Lemma export_lists_successes_witness :
  handleDownloadMarkdown "now" (handleSubmit_begin chosen) = None /\
  exists d,
    handleDownloadMarkdown "now"
      (received [Metadata 3; Result 1 (Some "a") "success" None None;
                 Result 2 None "error" (Some "x") None;
                 Result 3 (Some "c") "success" None None; Complete 3]) = Some d /\
    download d = "sample.md" /\
    content d =
      export_header (Some "sample.pdf") "now"
        {| total_pages := 3; results := [page 1 "a"; failed_page 2 "x"; page 3 "c"];
           processing_page := None; api_calls_made := Some 3; complete := true |}
      +++ page_sections [page 1 "a"; page 3 "c"].
Proof.
  split.
  - apply (proj1 (export_lists_successes (handleSubmit_begin chosen) _ "now" eq_refl)).
    reflexivity.
  - refine (proj1 (proj2 (proj2 (export_lists_successes
              (received [Metadata 3; Result 1 (Some "a") "success" None None;
                         Result 2 None "error" (Some "x") None;
                         Result 3 (Some "c") "success" None None; Complete 3])
              _ "now" eq_refl))) _).
    discriminate.
Defined.

(** Against C8 as stated: when the result of page 3 is received before
    that of page 1, and the job is complete so that the Download button is
    enabled, the document shows page 3 first; it is not the document of the
    successful outcomes in ascending page order. *)
Lemma export_follows_arrival_order :
  spec_exported_outcomes [page 3 "c"; page 1 "a"] = [page 1 "a"; page 3 "c"] /\
  exists s d,
    streamingState
      (received [Metadata 2; Result 3 (Some "c") "success" None None;
                 Result 1 (Some "a") "success" None None; Complete 2]) = Some s /\
    results s = [page 3 "c"; page 1 "a"] /\
    loading
      (received [Metadata 2; Result 3 (Some "c") "success" None None;
                 Result 1 (Some "a") "success" None None; Complete 2]) = false /\
    downloadDisabled
      (received [Metadata 2; Result 3 (Some "c") "success" None None;
                 Result 1 (Some "a") "success" None None; Complete 2]) s = false /\
    handleDownloadMarkdown "now"
      (received [Metadata 2; Result 3 (Some "c") "success" None None;
                 Result 1 (Some "a") "success" None None; Complete 2]) = Some d /\
    content d =
      export_header (Some "sample.pdf") "now" s +++ page_sections [page 3 "c"; page 1 "a"] /\
    content d <>
      export_header (Some "sample.pdf") "now" s +++
      page_sections (spec_exported_outcomes (results s)).
Proof.
  split; [reflexivity|].
  eexists; eexists. split; [reflexivity|]. split; [reflexivity|].
  split; [reflexivity|]. split; [reflexivity|].
  split; [reflexivity|]. split; [reflexivity|].
  vm_compute. discriminate.
Qed.

(** C9, as the component has it: the document is read off the file name,
    [total_pages], [results] and the clock; two states that agree on the
    first three give, at one clock reading, the same download whatever their
    other cells hold, and the documents of one state at two clock readings
    are one text around the reading. *)
Theorem export_reads_results_and_clock (a1 a2 : App) (s1 s2 : StreamingState)
    (now : string)
    (H1 : streamingState a1 = Some s1) (H2 : streamingState a2 = Some s2)
    (Hfile : file a1 = file a2)
    (Htotal : total_pages s1 = total_pages s2)
    (Hresults : results s1 = results s2) :
  handleDownloadMarkdown now a1 = handleDownloadMarkdown now a2 /\
  markdownContent s1 = markdownContent s2 /\
  exists before after,
    forall t, fullContent (file a1) t s1 = before +++ t +++ after /\
              fullContent (file a2) t s2 = before +++ t +++ after.
Proof.
  split; [|split].
  - unfold handleDownloadMarkdown, fullContent, markdownContent.
    rewrite H1, H2, Hfile, Htotal, Hresults. reflexivity.
  - unfold markdownContent. rewrite Hresults. reflexivity.
  - exists (("# OCR Results - " +++ JS.or_else (file a1) "Document" +++ JS.nl +++ JS.nl) +++
            ("**Total Pages:** " +++ JS.num (total_pages s1) +++ JS.nl) +++
            ("**Successful Pages:** " +++
               JS.num (Z.of_nat (List.length (filter isSuccess (results s1)))) +++ JS.nl) +++
            "**Generated:** ").
    exists ((JS.nl +++ JS.nl) +++ ("---" +++ JS.nl +++ JS.nl) +++ markdownContent s1).
    intros t.
    unfold fullContent, markdownContent. rewrite <- Hfile, <- Htotal, <- Hresults.
    rewrite !append_assoc. split; reflexivity.
Qed.

Lemma export_reads_results_and_clock_witness :
  handleDownloadMarkdown "now" (showing [page 1 "a"] 0) =
  handleDownloadMarkdown "now"
    (apply_event (Complete 1) (handlePageClick 4 (showing [page 1 "a"] 0))).
Proof.
  apply (export_reads_results_and_clock
           (showing [page 1 "a"] 0)
           (apply_event (Complete 1) (handlePageClick 4 (showing [page 1 "a"] 0)))
           _ _ "now" eq_refl eq_refl eq_refl eq_refl eq_refl).
Defined.

(** Against C9 as stated: one state, exported at two clock readings, gives
    two different documents. *)
Lemma export_changes_with_clock :
  handleDownloadMarkdown "11/2/2026, 10:00:00 AM" (showing [page 1 "a"] 0) <>
  handleDownloadMarkdown "11/2/2026, 10:00:01 AM" (showing [page 1 "a"] 0).
Proof. vm_compute. discriminate. Qed.

(* ================================================================= *)
(** ** Splitting the buffer *)

Lemma split_not_nil (s : string) : JS.split JS.LF s <> [].
Proof.
  destruct s as [|c s]; simpl; [discriminate|].
  destruct (Ascii.eqb c JS.LF); [discriminate|].
  destruct (JS.split JS.LF s); discriminate.
Qed.

Lemma split_no_LF (r : string) : no_LF r = true -> JS.split JS.LF r = [r].
Proof.
  induction r as [|c r IH]; simpl; [reflexivity|].
  intros H; apply andb_true_iff in H; destruct H as [Hc Hr].
  apply negb_true_iff in Hc; rewrite Hc, (IH Hr); reflexivity.
Qed.

Lemma split_line (l rest : string) :
  no_LF l = true ->
  JS.split JS.LF (l +++ JS.nl +++ rest) = l :: JS.split JS.LF rest.
Proof.
  induction l as [|c l IH]; [reflexivity|].
  intros H; apply andb_true_iff in H; destruct H as [Hc Hl].
  apply negb_true_iff in Hc.
  change (JS.split JS.LF (String c l +++ JS.nl +++ rest))
    with (if Ascii.eqb c JS.LF then EmptyString :: JS.split JS.LF (l +++ JS.nl +++ rest)
          else match JS.split JS.LF (l +++ JS.nl +++ rest) with
               | [] => [String c EmptyString]
               | h :: t => String c h :: t
               end).
  rewrite Hc, (IH Hl); reflexivity.
Qed.

Lemma pop_cons {A : Type} (x : A) (l : list A) :
  l <> [] -> JS.pop (x :: l) = (fst (JS.pop l), x :: snd (JS.pop l)).
Proof.
  destruct l as [|y l]; [congruence|]; intros _.
  change (JS.pop (x :: y :: l)) with (let (o, r) := JS.pop (y :: l) in (o, x :: r)).
  destruct (JS.pop (y :: l)); reflexivity.
Qed.

Lemma lines_text_app (xs ys : list string) :
  lines_text (xs ++ ys) = lines_text xs +++ lines_text ys.
Proof.
  induction xs as [|x xs IH]; simpl; [reflexivity|].
  rewrite IH, !append_assoc; reflexivity.
Qed.

(** A text made of lines and a rest without line feed is cut back into
    them. *)
Lemma cut_lines (lines : list string) (rest : string) :
  Forall (fun l => no_LF l = true) lines -> no_LF rest = true ->
  cut (lines_text lines +++ rest) = (lines, rest).
Proof.
  intros Hl Hr; induction Hl as [|l lines Hnl _ IH]; unfold cut in *.
  - simpl. rewrite (split_no_LF rest Hr); reflexivity.
  - change (lines_text (l :: lines)) with (l +++ JS.nl +++ lines_text lines).
    rewrite !append_assoc, (split_line l _ Hnl).
    rewrite pop_cons by apply split_not_nil.
    destruct (JS.pop (JS.split JS.LF (lines_text lines +++ rest))) as [o r].
    simpl. injection IH as -> ->. reflexivity.
Qed.

(** Every text is made of lines and a rest without line feed. *)
Lemma text_lines (s : string) :
  exists lines rest,
    s = lines_text lines +++ rest /\
    Forall (fun l => no_LF l = true) lines /\ no_LF rest = true.
Proof.
  induction s as [|c s (lines & rest & Hs & Hl & Hr)].
  - exists [], EmptyString; repeat split; constructor.
  - destruct (Ascii.eqb c JS.LF) eqn:Hc.
    + apply Ascii.eqb_eq in Hc; subst c.
      exists (EmptyString :: lines), rest; simpl; repeat split.
      * rewrite Hs; reflexivity.
      * constructor; [reflexivity|exact Hl].
      * exact Hr.
    + destruct lines as [|l lines].
      * exists [], (String c rest); simpl; repeat split.
        -- rewrite Hs; reflexivity.
        -- constructor.
        -- rewrite Hc; exact Hr.
      * exists (String c l :: lines), rest; simpl; repeat split.
        -- rewrite Hs; reflexivity.
        -- inversion Hl; subst; constructor; [simpl; rewrite Hc; assumption|assumption].
        -- exact Hr.
Qed.

Lemma cut_sound (s : string) :
  s = lines_text (fst (cut s)) +++ snd (cut s) /\
  Forall (fun l => no_LF l = true) (fst (cut s)) /\ no_LF (snd (cut s)) = true.
Proof.
  destruct (text_lines s) as (lines & rest & Hs & Hl & Hr).
  rewrite Hs at 2 3 4 5. rewrite (cut_lines lines rest Hl Hr). simpl. auto.
Qed.

(** Cutting a text that arrives in two parts: the lines of the first part,
    then the lines of what it left followed by the second part. *)
Lemma cut_app (s t : string) :
  cut (s +++ t) =
  (fst (cut s) ++ fst (cut (snd (cut s) +++ t)), snd (cut (snd (cut s) +++ t))).
Proof.
  destruct (cut_sound s) as (Hs & Hl & Hr).
  destruct (cut_sound (snd (cut s) +++ t)) as (Hs' & Hl' & Hr').
  destruct (cut s) as [l1 r1]; simpl in *.
  destruct (cut (r1 +++ t)) as [l2 r2]; simpl in *.
  subst s. rewrite append_assoc, Hs', <- append_assoc, <- lines_text_app.
  apply cut_lines; [apply Forall_app; split; assumption|assumption].
Qed.

Lemma cut_no_LF (r : string) : no_LF r = true -> cut r = ([], r).
Proof. intros Hr; apply (cut_lines [] r); [constructor|exact Hr]. Qed.

(* ================================================================= *)
(** ** The read loop *)

Section ReadLoopFacts.

Variable decoder_state : Type.
Variable decode_byte : decoder_state -> byte -> decoder_state * string.
Variable JSON_parse : string -> option SSEData.

Lemma decode_app (d : decoder_state) (x y : list byte) :
  decode decode_byte d (x ++ y) =
  (fst (decode decode_byte (fst (decode decode_byte d x)) y), snd (decode decode_byte d x) +++ snd (decode decode_byte (fst (decode decode_byte d x)) y)).
Proof.
  revert d; induction x as [|b x IH]; intros d; simpl.
  - destruct (decode decode_byte d y); reflexivity.
  - destruct (decode_byte d b) as [d1 t1]. rewrite IH.
    destruct (decode decode_byte d1 x) as [d2 t2]; simpl.
    rewrite append_assoc; reflexivity.
Qed.

Lemma events_of_app (xs ys : list LogEntry) :
  events_of (xs ++ ys) = events_of xs ++ events_of ys.
Proof.
  induction xs as [|x xs IH]; simpl; [reflexivity|].
  destruct x as [[e|]|l]; simpl; rewrite ?IH; reflexivity.
Qed.

Lemma line_events_app (xs ys : list string) :
  line_events JSON_parse (xs ++ ys) = line_events JSON_parse xs ++ line_events JSON_parse ys.
Proof.
  unfold line_events. rewrite flat_map_app. apply events_of_app.
Qed.

Lemma apply_events_app (xs ys : list StreamEvent) (a : App) :
  apply_events (xs ++ ys) a = apply_events ys (apply_events xs a).
Proof. unfold apply_events; apply fold_left_app. Qed.

(** One line: what it adds to the console, and the event among it applied
    to the state. *)
Lemma process_line_effect (st : Reader decoder_state) (line : string) :
  process_line JSON_parse st line =
  {| decoder := decoder st; buffer := buffer st;
     app := apply_events (events_of (line_log JSON_parse line)) (app st);
     console := console st ++ line_log JSON_parse line |}.
Proof.
  unfold process_line, line_log.
  destruct (JS.startsWith "data: " line).
  - destruct (JSON_parse (JS.slice 6 line)) as [[e|]|]; reflexivity.
  - destruct st; simpl; rewrite app_nil_r; reflexivity.
Qed.

(** The lines of one chunk: the console grows by their entries and the
    state is the fold of their events, whatever the lines that do not
    parse. *)
Lemma process_lines_effect (lines : list string) (st : Reader decoder_state) :
  process_lines JSON_parse lines st =
  {| decoder := decoder st; buffer := buffer st;
     app := apply_events (line_events JSON_parse lines) (app st);
     console := console st ++ flat_map (line_log JSON_parse) lines |}.
Proof.
  revert st; induction lines as [|l lines IH]; intros st.
  - destruct st; simpl; rewrite app_nil_r; reflexivity.
  - unfold process_lines in *; simpl fold_left.
    rewrite IH, process_line_effect; simpl.
    change (l :: lines) with ([l] ++ lines).
    rewrite line_events_app, apply_events_app, <- app_assoc.
    replace (line_events JSON_parse [l]) with (events_of (line_log JSON_parse l))
      by (unfold line_events; simpl; rewrite app_nil_r; reflexivity).
    reflexivity.
Qed.

(** One chunk, in terms of the text it decodes to. *)
Lemma read_chunk_effect (st : Reader decoder_state) (value : list byte) :
  read_chunk decode_byte JSON_parse st value =
  {| decoder := fst (decode decode_byte (decoder st) value);
     buffer := snd (cut (buffer st +++ snd (decode decode_byte (decoder st) value)));
     app := apply_events
              (line_events JSON_parse (fst (cut (buffer st +++ snd (decode decode_byte (decoder st) value)))))
              (app st);
     console := console st ++
                flat_map (line_log JSON_parse) (fst (cut (buffer st +++ snd (decode decode_byte (decoder st) value)))) |}.
Proof.
  unfold read_chunk, cut.
  destruct (decode decode_byte (decoder st) value) as [d text]; simpl.
  destruct (JS.pop (JS.split JS.LF (buffer st +++ text))) as [last lines]; simpl.
  rewrite process_lines_effect; reflexivity.
Qed.

Lemma read_chunk_buffer (st : Reader decoder_state) (value : list byte) :
  no_LF (buffer (read_chunk decode_byte JSON_parse st value)) = true.
Proof. rewrite read_chunk_effect; simpl. apply cut_sound. Qed.

(** Two chunks in a row are one chunk. *)
Lemma read_chunk_app (st : Reader decoder_state) (x y : list byte) :
  read_chunk decode_byte JSON_parse (read_chunk decode_byte JSON_parse st x) y = read_chunk decode_byte JSON_parse st (x ++ y).
Proof.
  rewrite !read_chunk_effect; simpl.
  rewrite decode_app; simpl.
  set (t1 := snd (decode decode_byte (decoder st) x)).
  set (t2 := snd (decode decode_byte (fst (decode decode_byte (decoder st) x)) y)).
  pose proof (cut_app (buffer st +++ t1) t2) as Hcut.
  rewrite append_assoc in Hcut. rewrite Hcut; simpl.
  rewrite line_events_app, apply_events_app, flat_map_app, app_assoc.
  reflexivity.
Qed.

Lemma read_chunk_nil (st : Reader decoder_state) :
  no_LF (buffer st) = true -> read_chunk decode_byte JSON_parse st [] = st.
Proof.
  intros Hb. rewrite read_chunk_effect; simpl.
  rewrite append_nil_r, (cut_no_LF _ Hb); simpl.
  destruct st; simpl; rewrite app_nil_r; reflexivity.
Qed.

Lemma read_chunks_concat (body : list (list byte)) (st : Reader decoder_state) :
  no_LF (buffer st) = true ->
  fold_left (read_chunk decode_byte JSON_parse) body st = read_chunk decode_byte JSON_parse st (List.concat body).
Proof.
  revert st; induction body as [|x body IH]; intros st Hb; simpl.
  - symmetry; apply read_chunk_nil, Hb.
  - rewrite IH by apply read_chunk_buffer. apply read_chunk_app.
Qed.

(** The whole loop, in terms of the text that the body decodes to: the
    lines of that text are run in order, whatever the chunks. *)
Lemma read_loop_effect (new_decoder : decoder_state) (body : list (list byte)) (a : App) :
  read_loop decode_byte JSON_parse new_decoder body a =
  {| decoder := fst (decode decode_byte new_decoder (List.concat body));
     buffer := snd (cut (snd (decode decode_byte new_decoder (List.concat body))));
     app := setLoading false
              (apply_events
                 (line_events JSON_parse
                    (fst (cut (snd (decode decode_byte new_decoder (List.concat body))))))
                 a);
     console := flat_map (line_log JSON_parse)
                  (fst (cut (snd (decode decode_byte new_decoder (List.concat body))))) |}.
Proof.
  unfold read_loop. rewrite read_chunks_concat by reflexivity.
  rewrite read_chunk_effect; reflexivity.
Qed.

(** C2: the loop run on a body cut into chunks in any way ends in the state
    of the loop run on the whole body as one chunk: same state of the
    component, same console and so same sequence of typed events, same
    buffer and decoder; in particular for the body delivered one byte at a
    time. *)
Theorem chunking_is_invisible (new_decoder : decoder_state)
    (body : list (list byte)) (a : App) :
  read_loop decode_byte JSON_parse new_decoder body a =
    read_loop decode_byte JSON_parse new_decoder [List.concat body] a /\
  events_of (console (read_loop decode_byte JSON_parse new_decoder body a)) =
    events_of (console (read_loop decode_byte JSON_parse new_decoder [List.concat body] a)) /\
  handleSubmit decode_byte JSON_parse new_decoder body a =
    handleSubmit decode_byte JSON_parse new_decoder [List.concat body] a /\
  (forall stream : list byte,
      read_loop decode_byte JSON_parse new_decoder (map (fun b => [b]) stream) a =
      read_loop decode_byte JSON_parse new_decoder [stream] a).
Proof.
  assert (H : forall (chunks : list (list byte)) (b : App),
             read_loop decode_byte JSON_parse new_decoder chunks b =
             read_loop decode_byte JSON_parse new_decoder [List.concat chunks] b).
  { intros chunks b. rewrite !read_loop_effect. simpl List.concat.
    rewrite app_nil_r. reflexivity. }
  split; [apply H|]. split; [rewrite H; reflexivity|]. split.
  - unfold handleSubmit. destruct (file a); [rewrite H|]; reflexivity.
  - intros stream. rewrite H.
    replace (List.concat (map (fun b => [b]) stream)) with stream; [reflexivity|].
    induction stream as [|b stream IH]; simpl; [reflexivity|].
    rewrite <- IH; reflexivity.
Qed.

(** C3: when the body decodes to a sequence of lines of which one does not
    parse (it carries the prefix and [JSON.parse] throws on the rest, or it
    does not carry the prefix at all), the loop goes on: the console holds
    the entries of the lines before it, the error if the line carried the
    prefix, and the entries of the lines after it; the typed events are those
    of the lines before followed by those of the lines after, each one
    applied to the state in that order; every frame after the bad line that
    parses to an event has its event among them. *)
Theorem malformed_line_is_skipped (new_decoder : decoder_state)
    (body : list (list byte)) (a : App)
    (before after : list string) (bad : string)
    (Htext : snd (decode decode_byte new_decoder (List.concat body)) =
             lines_text (before ++ bad :: after))
    (Hlines : Forall (fun l => no_LF l = true) (before ++ bad :: after))
    (Hbad : JS.startsWith "data: " bad = true -> JSON_parse (JS.slice 6 bad) = None) :
  console (read_loop decode_byte JSON_parse new_decoder body a) =
    flat_map (line_log JSON_parse) before ++
    (if JS.startsWith "data: " bad then [Error_parsing bad] else []) ++
    flat_map (line_log JSON_parse) after /\
  events_of (console (read_loop decode_byte JSON_parse new_decoder body a)) =
    line_events JSON_parse before ++ line_events JSON_parse after /\
  app (read_loop decode_byte JSON_parse new_decoder body a) =
    setLoading false
      (apply_events (line_events JSON_parse after)
         (apply_events (line_events JSON_parse before) a)) /\
  (forall line e,
      In line after -> JS.startsWith "data: " line = true ->
      JSON_parse (JS.slice 6 line) = Some (Event e) ->
      In e (events_of (console (read_loop decode_byte JSON_parse new_decoder body a)))).
Proof.
  assert (Hlog : line_log JSON_parse bad =
                 if JS.startsWith "data: " bad then [Error_parsing bad] else []).
  { unfold line_log. destruct (JS.startsWith "data: " bad); [|reflexivity].
    rewrite Hbad; reflexivity. }
  assert (Hnone : events_of (line_log JSON_parse bad) = [])
    by (rewrite Hlog; destruct (JS.startsWith "data: " bad); reflexivity).
  assert (Hcut : cut (snd (decode decode_byte new_decoder (List.concat body))) =
                 (before ++ bad :: after, EmptyString)).
  { rewrite Htext, <- (append_nil_r (lines_text _)).
    apply cut_lines; [exact Hlines|reflexivity]. }
  assert (Hev : line_events JSON_parse (before ++ bad :: after) =
                line_events JSON_parse before ++ line_events JSON_parse after).
  { rewrite line_events_app. f_equal.
    change (bad :: after) with ([bad] ++ after). rewrite line_events_app.
    unfold line_events at 1; simpl flat_map. rewrite app_nil_r, Hnone. reflexivity. }
  rewrite read_loop_effect, Hcut; simpl.
  split; [|split; [|split]].
  - rewrite flat_map_app; simpl. rewrite Hlog. reflexivity.
  - exact Hev.
  - rewrite Hev, apply_events_app. reflexivity.
  - intros line e Hin Hd Hp.
    change (In e (line_events JSON_parse (before ++ bad :: after))).
    rewrite Hev. apply in_or_app; right.
    apply in_split in Hin. destruct Hin as (l1 & l2 & ->).
    rewrite line_events_app. apply in_or_app; right.
    change (line :: l2) with ([line] ++ l2). rewrite line_events_app.
    apply in_or_app; left.
    unfold line_events, line_log; simpl. rewrite Hd, Hp. left; reflexivity.
Qed.

End ReadLoopFacts.

Lemma malformed_line_is_skipped_witness :
  events_of
    (console
       (Wire.run
          [Wire.on_wire (Wire.metadata_line 3) ++ list_byte_of_string "data: {bad";
           list_byte_of_string (JS.nl +++ JS.nl) ++ Wire.on_wire (Wire.complete_line 3)]
          (handleSubmit_begin (showing [] 0)))) =
  [Metadata 3; Complete 3].
Proof.
  refine (proj1 (proj2
    (malformed_line_is_skipped unit Wire.decode_byte Wire.JSON_parse tt
       [Wire.on_wire (Wire.metadata_line 3) ++ list_byte_of_string "data: {bad";
        list_byte_of_string (JS.nl +++ JS.nl) ++ Wire.on_wire (Wire.complete_line 3)]
       (handleSubmit_begin (showing [] 0))
       [Wire.metadata_line 3; EmptyString] [EmptyString; Wire.complete_line 3; EmptyString]
       "data: {bad" _ _ _))).
  - vm_compute; reflexivity.
  - vm_compute; repeat constructor.
  - intros _; reflexivity.
Defined.

(* ================================================================= *)
(** ** A job of three pages, from the bytes to the document *)

(** Read one byte at a time, the stream leaves the three outcomes in order,
    the second one failed, and the job complete. *)
Example three_pages_received :
  app (Wire.run (map (fun b => [b]) three_pages) (handleSubmit_begin chosen)) =
  {| file := Some "sample.pdf"; loading := false;
     streamingState :=
       Some {| total_pages := 3;
               results := [page 1 "alpha"; failed_page 2 "timeout"; page 3 "gamma"];
               processing_page := None; api_calls_made := Some 3; complete := true |};
     error := EmptyString; currentPageIndex := 0 |}.
Proof. vm_compute. reflexivity. Qed.

(** The document of that state shows pages 1 and 3. *)
Example three_pages_exported :
  handleDownloadMarkdown "11/2/2026, 10:00:00 AM"
    (app (Wire.run [three_pages] (handleSubmit_begin chosen))) =
  Some {| download := "sample.md";
          content := "# OCR Results - sample.pdf

**Total Pages:** 3
**Successful Pages:** 2
**Generated:** 11/2/2026, 10:00:00 AM

---

# Page 1

alpha

---

# Page 3

gamma

---
" |}.
Proof. vm_compute. reflexivity. Qed.

(* ================================================================= *)
(** ** Choosing a file, submitting, resetting *)

Lemma setCurrentPageIndex_same (i : Z) (a : App) :
  setCurrentPageIndex i a = a <-> i = currentPageIndex a.
Proof.
  split.
  - intros H. apply (f_equal currentPageIndex) in H. exact H.
  - intros ->. destruct a; reflexivity.
Qed.

(** X1: choosing a PDF, by the file input or by a drop, empties the view
    (no streaming state, index 0, no error) and keeps the name; submitting
    then starts from one and the same state, whatever the component held
    before. *)
Theorem pdf_then_submit_starts_clean (f : File) (others : list File) (a : App)
    (Hpdf : type f = "application/pdf") :
  streamingState (handleFileChange (f :: others) a) = None /\
  currentPageIndex (handleFileChange (f :: others) a) = 0 /\
  error (handleFileChange (f :: others) a) = EmptyString /\
  file (handleFileChange (f :: others) a) = Some (name f) /\
  handleDrop (f :: others) a = (false, handleFileChange (f :: others) a) /\
  handleSubmit_begin (handleFileChange (f :: others) a) =
    {| file := Some (name f); loading := true;
       streamingState := Some initialStreamingState;
       error := EmptyString; currentPageIndex := 0 |}.
Proof.
  unfold handleDrop, handleFileChange. rewrite Hpdf. simpl. repeat split.
Qed.

Lemma pdf_then_submit_starts_clean_witness :
  handleSubmit_begin
    (handleFileChange [ {| name := "b.pdf"; type := "application/pdf" |} ]
       (showing [page 1 "a"; page 2 "b"] 1)) =
  {| file := Some "b.pdf"; loading := true;
     streamingState := Some initialStreamingState;
     error := EmptyString; currentPageIndex := 0 |}.
Proof.
  apply (pdf_then_submit_starts_clean
           {| name := "b.pdf"; type := "application/pdf" |} []
           (showing [page 1 "a"; page 2 "b"] 1) eq_refl).
Defined.

(** X2: a file that is not a PDF is not kept: the file is cleared and the
    message set, the streaming state and the index stay; and a submission
    that follows makes no request: whatever [fetch] would give, it only sets
    its own message. *)
Theorem other_file_is_refused (decoder_state : Type)
    (decode_byte : decoder_state -> byte -> decoder_state * string)
    (JSON_parse : string -> option SSEData) (new_decoder : decoder_state)
    (r : FetchOutcome)
    (f : File) (others : list File) (a : App)
    (Hother : type f <> "application/pdf") :
  file (handleFileChange (f :: others) a) = None /\
  error (handleFileChange (f :: others) a) = "Please upload a PDF file" /\
  streamingState (handleFileChange (f :: others) a) = streamingState a /\
  currentPageIndex (handleFileChange (f :: others) a) = currentPageIndex a /\
  loading (handleFileChange (f :: others) a) = loading a /\
  handleDrop (f :: others) a = (false, handleFileChange (f :: others) a) /\
  handleSubmit_fetch decode_byte JSON_parse new_decoder r (handleFileChange (f :: others) a) =
    {| file := None; loading := loading a; streamingState := streamingState a;
       error := "Please select a PDF file"; currentPageIndex := currentPageIndex a |}.
Proof.
  unfold handleDrop, handleFileChange.
  destruct (String.eqb_spec (type f) "application/pdf") as [E|_]; [contradiction|].
  repeat split.
Qed.

Lemma other_file_is_refused_witness :
  handleSubmit_fetch Wire.decode_byte Wire.JSON_parse tt
    (Response true 200 (Some {| chunks := [three_pages]; ending := Done |}))
    (handleFileChange [ {| name := "a.png"; type := "image/png" |} ] chosen) =
  {| file := None; loading := false; streamingState := None;
     error := "Please select a PDF file"; currentPageIndex := 0 |}.
Proof.
  refine (proj2 (proj2 (proj2 (proj2 (proj2 (proj2
    (other_file_is_refused unit Wire.decode_byte Wire.JSON_parse tt
       (Response true 200 (Some {| chunks := [three_pages]; ending := Done |}))
       {| name := "a.png"; type := "image/png" |} [] chosen _))))))).
  discriminate.
Defined.

(* ================================================================= *)
(** ** Buttons, thumbnails and the handlers behind them *)

Lemma session_events (evs : list StreamEvent) (a : App) :
  session a -> session (apply_events evs a).
Proof.
  revert a; induction evs as [|e evs IH]; intros a Ha; [exact Ha|].
  apply (IH (apply_event e a)). apply session_event, Ha.
Qed.

Lemma session_received (evs : list StreamEvent) : session (received evs).
Proof.
  apply session_events. apply (session_submit chosen "sample.pdf"). reflexivity.
Qed.

(** X3: in a submission, each of the two buttons is disabled exactly when
    its handler would change nothing. *)
Theorem buttons_match_handlers (a : App) (s : StreamingState)
    (Hrun : session a) (Hs : streamingState a = Some s) :
  (nextDisabled a s = true <-> handleNextPage a = a) /\
  (prevDisabled a = true <-> handlePrevPage a = a).
Proof.
  destruct (session_selection a Hrun) as (s0 & Hs0 & H0 & _).
  unfold nextDisabled, prevDisabled, handleNextPage, handlePrevPage. rewrite Hs.
  split.
  - destruct (Z.ltb_spec (currentPageIndex a) (Z.of_nat (List.length (results s)) - 1)) as [Hlt|Hge].
    + rewrite setCurrentPageIndex_same. split; [|lia].
      intros H. apply Z.geb_le in H. lia.
    + split; [reflexivity|]. intros _. apply Z.geb_le. lia.
  - destruct (Z.gtb_spec (currentPageIndex a) 0) as [Hgt|Hle].
    + rewrite setCurrentPageIndex_same. rewrite Z.eqb_eq. lia.
    + rewrite Z.eqb_eq. split; [reflexivity|]. lia.
Qed.

Lemma buttons_match_handlers_witness :
  nextDisabled
    (received [Metadata 2; Result 1 (Some "a") "success" None None]) 
    {| total_pages := 2; results := [page 1 "a"]; processing_page := None;
       api_calls_made := None; complete := false |} = true <->
  handleNextPage (received [Metadata 2; Result 1 (Some "a") "success" None None]) =
  received [Metadata 2; Result 1 (Some "a") "success" None None].
Proof.
  refine (proj1 (buttons_match_handlers
            (received [Metadata 2; Result 1 (Some "a") "success" None None]) _ _ eq_refl)).
  apply session_received.
Defined.

(** X4: with the selection on a result, Next undone by Previous and Previous
    undone by Next give the state back, wherever the first of the two is
    enabled. *)
Theorem next_and_prev_undo_each_other (a : App) (s : StreamingState)
    (Hs : streamingState a = Some s)
    (Hsel : 0 <= currentPageIndex a < Z.of_nat (List.length (results s))) :
  (nextDisabled a s = false -> handlePrevPage (handleNextPage a) = a) /\
  (prevDisabled a = false -> handleNextPage (handlePrevPage a) = a).
Proof.
  unfold nextDisabled, prevDisabled. split; intros H.
  - assert (Hlt : currentPageIndex a < Z.of_nat (List.length (results s)) - 1).
    { destruct (Z.geb_spec (currentPageIndex a) (Z.of_nat (List.length (results s)) - 1));
        [discriminate|lia]. }
    unfold handleNextPage. rewrite Hs.
    destruct (Z.ltb_spec (currentPageIndex a) (Z.of_nat (List.length (results s)) - 1)); [|lia].
    unfold handlePrevPage; simpl.
    destruct (Z.gtb_spec (currentPageIndex a + 1) 0); [|lia].
    unfold setCurrentPageIndex; destruct a; simpl. f_equal; lia.
  - apply Z.eqb_neq in H.
    unfold handlePrevPage.
    destruct (Z.gtb_spec (currentPageIndex a) 0); [|lia].
    unfold handleNextPage; simpl. rewrite Hs.
    destruct (Z.ltb_spec (currentPageIndex a - 1) (Z.of_nat (List.length (results s)) - 1)); [|lia].
    unfold setCurrentPageIndex; destruct a; simpl. f_equal; lia.
Qed.

Lemma next_and_prev_undo_each_other_witness :
  handlePrevPage (handleNextPage (showing [page 1 "a"; page 2 "b"] 0)) =
  showing [page 1 "a"; page 2 "b"] 0.
Proof.
  refine (proj1 (next_and_prev_undo_each_other
                   (showing [page 1 "a"; page 2 "b"] 0) _ eq_refl _) eq_refl).
  simpl; lia.
Defined.

(** X5: from a selection on a result, Next pressed [n] times stops at the
    last result and Previous pressed [n] times stops at the first; neither
    touches the streaming state. *)
Theorem next_and_prev_saturate (n : nat) (a : App) (s : StreamingState)
    (Hs : streamingState a = Some s)
    (Hsel : 0 <= currentPageIndex a < Z.of_nat (List.length (results s))) :
  currentPageIndex (Nat.iter n handleNextPage a) =
    Z.min (currentPageIndex a + Z.of_nat n) (Z.of_nat (List.length (results s)) - 1) /\
  streamingState (Nat.iter n handleNextPage a) = Some s /\
  currentPageIndex (Nat.iter n handlePrevPage a) =
    Z.max (currentPageIndex a - Z.of_nat n) 0 /\
  streamingState (Nat.iter n handlePrevPage a) = Some s.
Proof.
  induction n as [|n (IHn & IHs & IHp & IHps)].
  - simpl. repeat split; try assumption; lia.
  - change (Nat.iter (S n) handleNextPage a) with (handleNextPage (Nat.iter n handleNextPage a)).
    change (Nat.iter (S n) handlePrevPage a) with (handlePrevPage (Nat.iter n handlePrevPage a)).
    unfold handleNextPage at 1 3. rewrite IHs.
    unfold handlePrevPage at 1 3.
    destruct (Z.ltb_spec (currentPageIndex (Nat.iter n handleNextPage a))
                         (Z.of_nat (List.length (results s)) - 1));
      destruct (Z.gtb_spec (currentPageIndex (Nat.iter n handlePrevPage a)) 0);
      simpl; repeat split; try assumption; lia.
Qed.

Lemma next_and_prev_saturate_witness :
  currentPageIndex (Nat.iter 5 handleNextPage (showing [page 1 "a"; page 2 "b"; page 3 "c"] 1)) = 2.
Proof.
  refine (proj1 (next_and_prev_saturate 5
                   (showing [page 1 "a"; page 2 "b"; page 3 "c"] 1) _ eq_refl _)).
  simpl; lia.
Defined.





(* ================================================================= *)
(** ** The download button and the name of the download *)

(** X7: whenever the Download button is enabled, nothing is loading, the
    handler does produce a document, and the document has at least one
    page. *)
Theorem download_enabled_gives_pages (a : App) (s : StreamingState) (now : string)
    (Hs : streamingState a = Some s) (Hon : downloadDisabled a s = false) :
  loading a = false /\
  filter isSuccess (results s) <> [] /\
  handleDownloadMarkdown now a =
    Some {| download := download_name (file a);
            content := export_header (file a) now s +++
                       page_sections (filter isSuccess (results s)) |}.
Proof.
  unfold downloadDisabled in Hon. apply orb_false_iff in Hon. destruct Hon as [Hl Hn].
  split; [exact Hl|].
  assert (Hne : filter isSuccess (results s) <> []).
  { intros E. rewrite E in Hn. discriminate. }
  split; [exact Hne|].
  unfold handleDownloadMarkdown. rewrite Hs.
  destruct (results s) as [|r rs] eqn:Hr; [simpl in Hne; congruence|].
  simpl Nat.eqb. cbv iota. rewrite fullContent_split, Hr. reflexivity.
Qed.

Lemma download_enabled_gives_pages_witness :
  filter isSuccess [page 1 "a"; failed_page 2 "x"] <> [].
Proof.
  refine (proj1 (proj2 (download_enabled_gives_pages
            (apply_event (Complete 2) (showing [page 1 "a"; failed_page 2 "x"] 0))
            {| total_pages := 3; results := [page 1 "a"; failed_page 2 "x"];
               processing_page := None; api_calls_made := Some 2; complete := true |}
            "now" eq_refl eq_refl))).
Defined.

Lemma replace_pdf_of_stem (stem : string) :
  no_dot stem = true -> JS.replace ".pdf" EmptyString (stem +++ ".pdf") = stem.
Proof.
  induction stem as [|c stem IH]; [reflexivity|].
  intros H; apply andb_true_iff in H; destruct H as [Hc Hst].
  apply negb_true_iff, Ascii.eqb_neq in Hc.
  change (JS.replace ".pdf" EmptyString (String c stem +++ ".pdf"))
    with (if String.prefix ".pdf" (String c (stem +++ ".pdf"))
          then EmptyString +++ JS.slice 4 (String c (stem +++ ".pdf"))
          else String c (JS.replace ".pdf" EmptyString (stem +++ ".pdf"))).
  change (String.prefix ".pdf" (String c (stem +++ ".pdf")))
    with (if Ascii.ascii_dec "." c then String.prefix "pdf" (stem +++ ".pdf") else false).
  destruct (Ascii.ascii_dec "." c) as [E|_]; [congruence|].
  rewrite (IH Hst). reflexivity.
Qed.

(** X8: for a file named by a non-empty stem without full stop followed by
    [.pdf], the download is named by that stem followed by [.md]. *)
Theorem download_is_named_after_the_file (a : App) (s : StreamingState)
    (now stem : string)
    (Hs : streamingState a = Some s) (Hres : results s <> [])
    (Hfile : file a = Some (stem +++ ".pdf"))
    (Hstem : stem <> EmptyString) (Hdot : no_dot stem = true) :
  exists d, handleDownloadMarkdown now a = Some d /\ download d = stem +++ ".md".
Proof.
  unfold handleDownloadMarkdown. rewrite Hs.
  destruct (results s) as [|r rs]; [congruence|].
  simpl Nat.eqb. cbv iota. eexists; split; [reflexivity|]. simpl download.
  unfold download_name. rewrite Hfile. simpl option_map.
  rewrite (replace_pdf_of_stem stem Hdot).
  destruct stem; [congruence|reflexivity].
Qed.

Lemma download_is_named_after_the_file_witness :
  exists d, handleDownloadMarkdown "now" (showing [page 1 "a"] 0) = Some d /\
            download d = "sample.md".
Proof.
  apply (download_is_named_after_the_file (showing [page 1 "a"] 0) _ "now" "sample" eq_refl).
  - discriminate.
  - reflexivity.
  - discriminate.
  - reflexivity.
Defined.

(** X9: whatever the file is called, and also without a file, a download
    is named by a non-empty stem followed by [.md]. *)
Theorem download_has_a_name (a : App) (now : string) (d : Download)
    (Hd : handleDownloadMarkdown now a = Some d) :
  exists stem, stem <> EmptyString /\ download d = stem +++ ".md".
Proof.
  unfold handleDownloadMarkdown in Hd.
  destruct (streamingState a) as [s|]; [|discriminate].
  destruct (List.length (results s) =? 0)%nat; [discriminate|].
  injection Hd as <-. simpl. unfold download_name.
  exists (JS.or_else (option_map (JS.replace ".pdf" EmptyString) (file a)) "ocr-results").
  split; [|reflexivity].
  destruct (option_map (JS.replace ".pdf" EmptyString) (file a)) as [[|c x]|]; discriminate.
Qed.

Lemma download_has_a_name_witness :
  exists stem, stem <> EmptyString /\
               download {| download := "ocr-results.md";
                           content := fullContent (Some ".pdf") "now"
                                        {| total_pages := 3; results := [page 1 "a"];
                                           processing_page := None; api_calls_made := None;
                                           complete := false |} |} = stem +++ ".md".
Proof.
  apply (download_has_a_name
           (setFile (Some ".pdf") (showing [page 1 "a"] 0)) "now").
  reflexivity.
Defined.

(** X10: the error is shown while there is no result only.  With a result
    held, the message of an [Error] frame or of a failure caught by
    [handleSubmit] is recorded and not displayed; with none, a non-empty
    message of an [Error] frame is displayed. *)
Theorem error_is_hidden_behind_results (a : App) (s : StreamingState)
    (message : string) (caught : option string)
    (Hs : streamingState a = Some s) :
  error (apply_event (Error message) a) = message /\
  (results s <> [] ->
     displayedError (apply_event (Error message) a) = None /\
     displayedError (catch_error caught a) = None) /\
  (results s = [] -> message <> EmptyString ->
     displayedError (apply_event (Error message) a) = Some message).
Proof.
  split; [reflexivity|].
  unfold displayedError, hasResults; simpl. rewrite Hs. split.
  - intros Hres. destruct (results s); [congruence|]. split; reflexivity.
  - intros Hnil Hm. rewrite Hnil; simpl.
    destruct (String.eqb_spec message EmptyString); [contradiction|reflexivity].
Qed.

Lemma error_is_hidden_behind_results_witness :
  displayedError (apply_event (Error "boom") (showing [page 1 "a"] 0)) = None.
Proof.
  refine (proj1 (proj1 (proj2 (error_is_hidden_behind_results
            (showing [page 1 "a"] 0) _ "boom" None eq_refl)) _)).
  discriminate.
Defined.

(* ================================================================= *)
(** ** What a stream leaves *)

Lemma apply_events_loading (evs : list StreamEvent) (a : App) :
  loading (apply_events evs a) = if existsb ends_loading evs then false else loading a.
Proof.
  revert a; induction evs as [|e evs IH]; intros a; [reflexivity|].
  change (apply_events (e :: evs) a) with (apply_events evs (apply_event e a)).
  rewrite IH. simpl existsb.
  destruct e; simpl; try reflexivity; destruct (existsb ends_loading evs); reflexivity.
Qed.

Lemma apply_events_error (evs : list StreamEvent) (a : App) :
  existsb ends_loading evs = false -> error (apply_events evs a) = error a.
Proof.
  revert a; induction evs as [|e evs IH]; intros a H; [reflexivity|].
  change (apply_events (e :: evs) a) with (apply_events evs (apply_event e a)).
  simpl in H. apply orb_false_iff in H. destruct H as [He Hevs].
  rewrite (IH _ Hevs). destruct e; try reflexivity; discriminate.
Qed.

Lemma apply_events_complete (evs : list StreamEvent) (a : App) (s : StreamingState) :
  streamingState a = Some s ->
  exists s', streamingState (apply_events evs a) = Some s' /\
             results s' = results s ++ outcomes evs /\
             complete s' = complete s || existsb is_complete evs.
Proof.
  revert a s; induction evs as [|e evs IH]; intros a s Hs.
  - exists s; simpl. rewrite app_nil_r, orb_false_r. auto.
  - change (apply_events (e :: evs) a) with (apply_events evs (apply_event e a)).
    assert (H1 : exists s1, streamingState (apply_event e a) = Some s1 /\
                            results s1 = results s ++ outcomes [e] /\
                            complete s1 = complete s || is_complete e).
    { destruct e; simpl; unfold updateStreamingState; simpl; rewrite ?Hs; simpl;
        eexists; (split; [reflexivity|]); simpl;
        rewrite ?app_nil_r, ?orb_false_r, ?orb_true_r; auto. }
    destruct H1 as (s1 & H1 & R1 & C1).
    destruct (IH _ _ H1) as (s2 & H2 & R2 & C2).
    exists s2. split; [exact H2|]. split.
    + rewrite R2, R1, <- app_assoc.
      change (e :: evs) with ([e] ++ evs). rewrite outcomes_app. reflexivity.
    + rewrite C2, C1. simpl existsb. rewrite orb_assoc. reflexivity.
Qed.

Section StreamFacts.

Variable decoder_state : Type.
Variable decode_byte : decoder_state -> byte -> decoder_state * string.
Variable JSON_parse : string -> option SSEData.

(** The loop before its last turn, in terms of the text read so far. *)
Lemma read_chunks_effect (new_decoder : decoder_state) (body : list (list byte)) (a : App) :
  read_chunks decode_byte JSON_parse new_decoder body a =
  {| decoder := fst (decode decode_byte new_decoder (List.concat body));
     buffer := snd (cut (snd (decode decode_byte new_decoder (List.concat body))));
     app := apply_events
              (line_events JSON_parse
                 (fst (cut (snd (decode decode_byte new_decoder (List.concat body))))))
              a;
     console := flat_map (line_log JSON_parse)
                  (fst (cut (snd (decode decode_byte new_decoder (List.concat body))))) |}.
Proof.
  unfold read_chunks. rewrite read_chunks_concat by reflexivity.
  rewrite read_chunk_effect; reflexivity.
Qed.

(** X11: lines that do not carry the prefix [data: ], among them blank
    lines, comments and [data:] without the space, leave the state and the
    console as they are. *)
Theorem lines_without_prefix_are_ignored (lines : list string)
    (st : Reader decoder_state)
    (Hlines : Forall (fun l => JS.startsWith "data: " l = false) lines) :
  process_lines JSON_parse lines st = st.
Proof.
  revert st; induction Hlines as [|l lines Hl _ IH]; intros st; [reflexivity|].
  unfold process_lines in *; simpl fold_left.
  unfold process_line at 2. rewrite Hl. apply IH.
Qed.

(** X12: at the end of the loop the buffer is the part of the decoded text
    after its last line feed: the lines that were run, each with its line
    feed, followed by the buffer, are the text, nothing lost and nothing
    twice. *)
Theorem buffer_is_the_unfinished_line (new_decoder : decoder_state)
    (body : list (list byte)) (a : App) :
  exists lines,
    snd (decode decode_byte new_decoder (List.concat body)) =
      lines_text lines +++ buffer (read_loop decode_byte JSON_parse new_decoder body a) /\
    no_LF (buffer (read_loop decode_byte JSON_parse new_decoder body a)) = true /\
    Forall (fun l => no_LF l = true) lines /\
    console (read_loop decode_byte JSON_parse new_decoder body a) =
      flat_map (line_log JSON_parse) lines /\
    app (read_loop decode_byte JSON_parse new_decoder body a) =
      setLoading false (apply_events (line_events JSON_parse lines) a).
Proof.
  rewrite read_loop_effect; simpl.
  exists (fst (cut (snd (decode decode_byte new_decoder (List.concat body))))).
  destruct (cut_sound (snd (decode decode_byte new_decoder (List.concat body))))
    as (Htext & Hl & Hr).
  repeat split; assumption.
Qed.

(** X13: a last frame that no line feed follows is never run, also when
    the stream is over: the state and the console are those of the lines
    before it, and the frame stays in the buffer. *)
Theorem unfinished_frame_is_dropped (new_decoder : decoder_state)
    (body : list (list byte)) (a : App) (lines : list string) (last : string)
    (Htext : snd (decode decode_byte new_decoder (List.concat body)) =
             lines_text lines +++ last)
    (Hlines : Forall (fun l => no_LF l = true) lines)
    (Hlast : no_LF last = true) :
  app (read_loop decode_byte JSON_parse new_decoder body a) =
    setLoading false (apply_events (line_events JSON_parse lines) a) /\
  console (read_loop decode_byte JSON_parse new_decoder body a) =
    flat_map (line_log JSON_parse) lines /\
  buffer (read_loop decode_byte JSON_parse new_decoder body a) = last.
Proof.
  rewrite read_loop_effect, Htext, (cut_lines lines last Hlines Hlast).
  repeat split.
Qed.


(** X15: when the body of a submission with a file decodes to a sequence
    of lines, each ended by its line feed, followed by a rest without line
    feed, [complete] is set at the end exactly when one of these lines
    carried a [Complete] frame, whatever the rest holds, and [loading] is
    over either way; when the lines carry neither a [Complete] nor an
    [Error] frame, no error message is left, so that a stream cut short
    shows as neither loading, nor complete, nor failed. *)
Theorem completion_needs_a_frame (new_decoder : decoder_state)
    (body : list (list byte)) (a : App) (f : string)
    (lines : list string) (rest : string)
    (Hf : file a = Some f)
    (Htext : snd (decode decode_byte new_decoder (List.concat body)) =
             lines_text lines +++ rest)
    (Hlines : Forall (fun l => no_LF l = true) lines)
    (Hrest : no_LF rest = true) :
  exists s,
    streamingState (handleSubmit decode_byte JSON_parse new_decoder body a) = Some s /\
    complete s = existsb is_complete (line_events JSON_parse lines) /\
    loading (handleSubmit decode_byte JSON_parse new_decoder body a) = false /\
    (existsb ends_loading (line_events JSON_parse lines) = false ->
     complete s = false /\
     error (handleSubmit decode_byte JSON_parse new_decoder body a) = EmptyString).
Proof.
  unfold handleSubmit. rewrite Hf, read_loop_effect, Htext, (cut_lines lines rest Hlines Hrest).
  simpl.
  set (evs := line_events JSON_parse lines).
  destruct (apply_events_complete evs (handleSubmit_begin a) initialStreamingState)
    as (s & Hs & _ & Hc).
  { unfold handleSubmit_begin; rewrite Hf; reflexivity. }
  exists s. split; [exact Hs|]. split; [exact Hc|]. split; [reflexivity|].
  intros Hnone. split.
  - rewrite Hc. simpl.
    destruct (existsb is_complete evs) eqn:E; [|reflexivity].
    apply existsb_exists in E. destruct E as (e & Hin & He).
    assert (Hx : existsb ends_loading evs = true).
    { apply existsb_exists. exists e. split; [exact Hin|]. destruct e; try discriminate; reflexivity. }
    congruence.
  - rewrite (apply_events_error evs _ Hnone).
    unfold handleSubmit_begin; rewrite Hf; reflexivity.
Qed.

(** X16: while the body is being read, [loading] holds as long as no
    [Complete] and no [Error] frame has been run, and no longer. *)
Theorem loading_lasts_until_a_final_frame (new_decoder : decoder_state)
    (body : list (list byte)) (a : App) (f : string)
    (Hf : file a = Some f) :
  loading (app (read_chunks decode_byte JSON_parse new_decoder body (handleSubmit_begin a))) =
  negb (existsb ends_loading
          (events_of (console (read_chunks decode_byte JSON_parse new_decoder body
                                 (handleSubmit_begin a))))).
Proof.
  rewrite read_chunks_effect; simpl. rewrite apply_events_loading.
  fold (line_events JSON_parse
          (fst (cut (snd (decode decode_byte new_decoder (List.concat body)))))).
  destruct (existsb ends_loading _); [reflexivity|].
  unfold handleSubmit_begin; rewrite Hf; reflexivity.
Qed.


(** X18: when a read of the body fails, what the frames read so far have
    left is kept: the streaming state is the one of the same body read to its
    end, with the outcomes of its [Result] frames in [results], and the
    message of the failure, or the default one, becomes the error. *)
Theorem broken_stream_keeps_results (new_decoder : decoder_state)
    (status : Z) (body : list (list byte)) (message : option string)
    (a : App) (f : string)
    (Hf : file a = Some f) :
  streamingState
    (handleSubmit_fetch decode_byte JSON_parse new_decoder
       (Response true status (Some {| chunks := body; ending := Failed message |})) a) =
  streamingState (handleSubmit decode_byte JSON_parse new_decoder body a) /\
  error
    (handleSubmit_fetch decode_byte JSON_parse new_decoder
       (Response true status (Some {| chunks := body; ending := Failed message |})) a) =
  JS.or_else message "An error occurred while processing the PDF" /\
  exists s,
    streamingState
      (handleSubmit_fetch decode_byte JSON_parse new_decoder
         (Response true status (Some {| chunks := body; ending := Failed message |})) a) =
    Some s /\
    results s =
      outcomes (events_of (console (read_chunks decode_byte JSON_parse new_decoder body
                                      (handleSubmit_begin a)))).
Proof.
  unfold handleSubmit_fetch, handleSubmit. rewrite Hf. simpl.
  split; [reflexivity|]. split; [reflexivity|].
  rewrite read_chunks_effect; simpl.
  destruct (apply_events_complete
              (line_events JSON_parse
                 (fst (cut (snd (decode decode_byte new_decoder (List.concat body))))))
              (handleSubmit_begin a) initialStreamingState) as (s & Hs & Hr & _).
  - unfold handleSubmit_begin; rewrite Hf; reflexivity.
  - exists s; split; [exact Hs|exact Hr].
Qed.

End StreamFacts.

Lemma lines_without_prefix_are_ignored_witness :
  process_lines Wire.JSON_parse
    ["data:" +++ JS.slice 6 (Wire.complete_line 3); EmptyString; ": ping"; "event: result"]
    {| decoder := tt; buffer := EmptyString; app := handleSubmit_begin chosen; console := [] |} =
  {| decoder := tt; buffer := EmptyString; app := handleSubmit_begin chosen; console := [] |}.
Proof.
  apply (lines_without_prefix_are_ignored unit Wire.JSON_parse).
  repeat constructor.
Defined.

Lemma unfinished_frame_is_dropped_witness :
  app (Wire.run [Wire.on_wire (Wire.metadata_line 3) ++
                 list_byte_of_string (Wire.complete_line 3)]
         (handleSubmit_begin chosen)) =
  setLoading false (apply_events [Metadata 3] (handleSubmit_begin chosen)).
Proof.
  refine (proj1 (unfinished_frame_is_dropped unit Wire.decode_byte Wire.JSON_parse tt
                   [Wire.on_wire (Wire.metadata_line 3) ++
                    list_byte_of_string (Wire.complete_line 3)]
                   (handleSubmit_begin chosen)
                   [Wire.metadata_line 3; EmptyString] (Wire.complete_line 3) _ _ _)).
  - vm_compute; reflexivity.
  - vm_compute; repeat constructor.
  - vm_compute; reflexivity.
Defined.


Lemma completion_needs_a_frame_witness :
  exists s,
    streamingState
      (handleSubmit Wire.decode_byte Wire.JSON_parse tt
         [Wire.on_wire (Wire.metadata_line 3) ++ Wire.on_wire (Wire.success_line 1 "alpha") ++
          list_byte_of_string (Wire.complete_line 3)]
         chosen) = Some s /\
    complete s = false.
Proof.
  destruct (completion_needs_a_frame unit Wire.decode_byte Wire.JSON_parse tt
              [Wire.on_wire (Wire.metadata_line 3) ++ Wire.on_wire (Wire.success_line 1 "alpha") ++
               list_byte_of_string (Wire.complete_line 3)]
              chosen "sample.pdf"
              [Wire.metadata_line 3; EmptyString; Wire.success_line 1 "alpha"; EmptyString]
              (Wire.complete_line 3) eq_refl)
    as (s & Hs & _ & _ & Hcut).
  - vm_compute; reflexivity.
  - vm_compute; repeat constructor.
  - vm_compute; reflexivity.
  - exists s. split; [exact Hs|]. apply Hcut. vm_compute. reflexivity.
Defined.

Lemma loading_lasts_until_a_final_frame_witness :
  loading
    (app (read_chunks Wire.decode_byte Wire.JSON_parse tt
            [Wire.on_wire (Wire.metadata_line 3)] (handleSubmit_begin chosen))) = true.
Proof.
  rewrite (loading_lasts_until_a_final_frame unit Wire.decode_byte Wire.JSON_parse tt
             [Wire.on_wire (Wire.metadata_line 3)] chosen "sample.pdf" eq_refl).
  vm_compute. reflexivity.
Defined.


Lemma broken_stream_keeps_results_witness :
  exists s,
    streamingState
      (handleSubmit_fetch Wire.decode_byte Wire.JSON_parse tt
         (Response true 200
            (Some {| chunks := [Wire.on_wire (Wire.metadata_line 3) ++
                                Wire.on_wire (Wire.success_line 1 "alpha")];
                     ending := Failed None |}))
         chosen) = Some s /\
    results s = [page 1 "alpha"].
Proof.
  destruct (broken_stream_keeps_results unit Wire.decode_byte Wire.JSON_parse tt 200
              [Wire.on_wire (Wire.metadata_line 3) ++ Wire.on_wire (Wire.success_line 1 "alpha")]
              None chosen "sample.pdf" eq_refl) as (_ & _ & s & Hs & Hr).
  exists s. split; [exact Hs|]. vm_compute in Hr. exact Hr.
Defined.
